(** * bin2iso: conversion of a raw CD sector image (BIN) to ISO

    A shallow embedding of [src/bin2iso.c] and the properties of its
    sector-format detector and stream re-packer.

    Modelling conventions.
    - A [char] is modelled by its object representation, one [byte].  The
      program only copies chars, compares two chars with [!=], tests a char
      against zero and switches on the values 1 and 2; all of these agree on
      platforms with signed and with unsigned [char].
    - [size_t] and [long] values are modelled in [Z].  The only arithmetic is
      [img_sz % sector_sz] and [img_sz / sector_sz], carried out in an
      unsigned type on a non-negative [img_sz] that is at most [LONG_MAX]
      and a divisor of 2336 or 2352, and [i++] below [nr_sectors]: nothing
      wraps around.  [LONG_MAX] comes from <limits.h>; it is a parameter.
    - The two files are byte sequences held in memory.  A read fails exactly
      when fewer bytes remain than were asked for; writes and seeks on the
      device do not fail.  The text of a message is not modelled: a message
      is a constructor carrying the arguments given to [warn] or [die].
    - The model starts where [main] opens its files (line 101), with the
      names of two distinct files that can be opened; the handling of [argv]
      before that is left out. *)

From Stdlib Require Import ZArith List Lia Bool.
From Stdlib Require Import Strings.Byte.
From Stdlib Require Import Sorting.Sorted.
Import ListNotations.

Local Open Scope Z_scope.

(** ** Files, messages and the machine state *)

(** A stdio stream over a file: the bytes of the file and the file position
    indicator. *)
Record FILE : Type := mkFILE {
  contents : list byte;
  position : nat
}.

(** The two [FILE *] variables of [main]. *)
Inductive stream : Type := src | dst.

(** [warn(fmt, ...)] call sites (lines 136 and 145). *)
Inductive warning : Type :=
| Image_size_not_factor (sector_sz tail_sz : Z)
| Sector_has_different_mode (i : Z) (observed expected : byte).

(** [die(fmt, ...)] call sites reachable after the files are opened. *)
Inductive fatal : Type :=
| Read_error
| Write_error
| Seek_error
| Unsupported_track_mode (mode : byte)
| Cannot_determine_source_file_size.

(** One line on stderr. *)
Inductive line : Type :=
| Warning (w : warning)
| Fatal (e : fatal).

Inductive exit_status : Type := EXIT_SUCCESS | EXIT_FAILURE.

Inductive whence : Type := SEEK_SET | SEEK_CUR | SEEK_END.

Record state : Type := mkState {
  src_file : FILE;
  dst_file : FILE;
  stderr : list line;
  buf : list byte          (* char buf[2352] of main *)
}.

Definition get_file (s : stream) (st : state) : FILE :=
  match s with
  | src => src_file st
  | dst => dst_file st
  end.

Definition set_file (s : stream) (f : FILE) (st : state) : state :=
  match s with
  | src => mkState f (dst_file st) (stderr st) (buf st)
  | dst => mkState (src_file st) f (stderr st) (buf st)
  end.

Definition set_buf (b : list byte) (st : state) : state :=
  mkState (src_file st) (dst_file st) (stderr st) b.

Definition put_line (l : line) (st : state) : state :=
  mkState (src_file st) (dst_file st) (stderr st ++ [l]) (buf st).

(** ** The monad of the program: state, and termination through [exit] *)

Inductive outcome (A : Type) : Type :=
| Running (a : A) (st : state)
| Exited (status : exit_status) (st : state).
Arguments Running {A} a st.
Arguments Exited {A} status st.

Definition M (A : Type) : Type := state -> outcome A.

Definition ret {A : Type} (a : A) : M A := fun st => Running a st.

Definition bind {A B : Type} (c : M A) (k : A -> M B) : M B :=
  fun st =>
    match c st with
    | Running a st' => k a st'
    | Exited status st' => Exited status st'
    end.

Notation "x <- c ;; k" := (bind c (fun x => k))
  (at level 61, c at next level, right associativity).
Notation "c ;; k" := (bind c (fun _ => k))
  (at level 61, right associativity).

Definition final_state {A : Type} (o : outcome A) : state :=
  match o with
  | Running _ st => st
  | Exited _ st => st
  end.

Definition exit_code {A : Type} (o : outcome A) : option exit_status :=
  match o with
  | Running _ _ => None
  | Exited status _ => Some status
  end.

Definition load_buf : M (list byte) := fun st => Running (buf st) st.

(** ** The C library, as far as the program uses it *)

Definition exit {A : Type} (status : exit_status) : M A :=
  fun st => Exited status st.

(** Overwrite [data] over the cells of [b] from index [ptr] on. *)
Definition store (ptr : nat) (data b : list byte) : list byte :=
  firstn ptr b ++ data ++ skipn (ptr + length data) b.

(** [fread(&buf[ptr], sz, 1, stream)]: the number of whole items read, 1 or
    0.  On a short read the bytes that remain are still transferred and the
    position ends at the end of the file.  An item of size zero reads
    nothing and counts as no item. *)
Definition fread (ptr : nat) (sz : Z) (s : stream) : M Z :=
  fun st =>
    let f := get_file s st in
    let avail := skipn (position f) (contents f) in
    let n := Z.to_nat sz in
    if (n <=? length avail)%nat then
      Running (if 0 <? sz then 1 else 0)
        (set_buf (store ptr (firstn n avail) (buf st))
           (set_file s (mkFILE (contents f) (position f + n)) st))
    else
      Running 0
        (set_buf (store ptr avail (buf st))
           (set_file s (mkFILE (contents f) (position f + length avail)) st)).

(** [fwrite(&buf[ptr], sz, 1, stream)]: the bytes go to the file at the
    position indicator, over what is there and past the end.  The device
    takes every byte, so the count is 1 unless the item has size zero. *)
Definition fwrite (ptr : nat) (sz : Z) (s : stream) : M Z :=
  fun st =>
    let f := get_file s st in
    let data := firstn (Z.to_nat sz) (skipn ptr (buf st)) in
    Running (if 0 <? sz then 1 else 0)
      (set_file s
         (mkFILE (store (position f) data (contents f))
                 (position f + length data)) st).

Definition fseek (s : stream) (offset : Z) (w : whence) : M Z :=
  fun st =>
    let f := get_file s st in
    let base :=
      match w with
      | SEEK_SET => 0
      | SEEK_CUR => Z.of_nat (position f)
      | SEEK_END => Z.of_nat (length (contents f))
      end in
    if base + offset <? 0 then Running (-1) st
    else Running 0 (set_file s (mkFILE (contents f) (Z.to_nat (base + offset))) st).

Definition rewind (s : stream) : M unit :=
  fun st => Running tt (set_file s (mkFILE (contents (get_file s st)) 0) st).

(** [fopen(name, "rb")] on an existing file. *)
Definition fopen_rb (s : stream) : M unit :=
  fun st => Running tt (set_file s (mkFILE (contents (get_file s st)) 0) st).

(** [fopen(name, "wb")] on a writable file: the file is truncated to zero
    length. *)
Definition fopen_wb (s : stream) : M unit :=
  fun st => Running tt (set_file s (mkFILE [] 0) st).

(** [fclose]: the bytes written are already in the file; the model keeps the
    last position of the closed stream. *)
Definition fclose (s : stream) : M unit := ret tt.

(** Bytewise comparison of the first [n] bytes, as unsigned chars. *)
Fixpoint memcmp (s1 s2 : list byte) (n : nat) {struct n} : Z :=
  match n with
  | O => 0
  | S n' =>
      match s1, s2 with
      | a :: s1', b :: s2' =>
          if Byte.eqb a b then memcmp s1' s2' n'
          else Z.of_N (Byte.to_N a) - Z.of_N (Byte.to_N b)
      | _, _ => 0
      end
  end.

(** [for (long i = lo; i < hi; i++) body]: a counted loop whose body changes
    neither [i] nor [hi]. *)
Fixpoint for_count (n : nat) (i : Z) (body : Z -> M unit) : M unit :=
  match n with
  | O => ret tt
  | S n' => body i ;; for_count n' (i + 1) body
  end.

Definition for_long (lo hi : Z) (body : Z -> M unit) : M unit :=
  for_count (Z.to_nat (hi - lo)) lo body.

(** ** The program *)

Definition MODE_OFFSET : nat := 15.

Definition SYNC_HEADER : list byte :=
  [x00; xff; xff; xff; xff; xff; xff; xff; xff; xff; xff; x00].

Definition warn (w : warning) : M unit :=
  fun st => Running tt (put_line (Warning w) st).

Definition die {A : Type} (e : fatal) : M A :=
  fun st => Exited EXIT_FAILURE (put_line (Fatal e) st).

Definition xfread (ptr : nat) (sz : Z) (s : stream) : M unit :=
  n <- fread ptr sz s ;;
  if negb (n =? 1) then die Read_error else ret tt.

Definition xfwrite (ptr : nat) (sz : Z) (s : stream) : M unit :=
  n <- fwrite ptr sz s ;;
  if negb (n =? 1) then die Write_error else ret tt.

Definition xfseek (s : stream) (offset : Z) (w : whence) : M unit :=
  r <- fseek s offset w ;;
  if negb (r =? 0) then die Seek_error else ret tt.

(** The locals [mode], [hdr_sz] and [sector_sz] of [main], set together by
    the detection branch. *)
Record layout : Type := mkLayout {
  mode : byte;
  hdr_sz : Z;
  sector_sz : Z
}.

(** Lines 109-128: the layout, from the 16 bytes read into [buf]. *)
Definition detect : M layout :=
  b <- load_buf ;;
  if negb (memcmp SYNC_HEADER b (length SYNC_HEADER) =? 0) then
    (* Mode 2 / 2336 *)
    ret (mkLayout x00 8 2336)
  else
    let mode := nth MODE_OFFSET b x00 in
    if Byte.eqb mode x02 then        (* Mode 2 / 2352 *)
      ret (mkLayout mode 24 2352)
    else if Byte.eqb mode x01 then   (* Mode 1 / 2352 *)
      ret (mkLayout mode 16 2352)
    else
      die (Unsupported_track_mode mode).

(** Lines 143-148: the body of the sector loop. *)
Definition copy_sector (l : layout) (i : Z) : M unit :=
  xfread 0 (sector_sz l) src ;;
  b <- load_buf ;;
  (if negb (Byte.eqb (mode l) x00)
      && negb (Byte.eqb (nth MODE_OFFSET b x00) (mode l))
   then warn (Sector_has_different_mode i (nth MODE_OFFSET b x00) (mode l))
   else ret tt) ;;
  xfwrite (Z.to_nat (hdr_sz l)) 2048 dst.

Section Platform.

(** The largest value of a [long]; the C standard makes it at least
    2^31 - 1. *)
Variable LONG_MAX : Z.

(** [ftell]: the position, or -1 when a [long] cannot hold it. *)
Definition ftell (s : stream) : M Z :=
  fun st =>
    let p := Z.of_nat (position (get_file s st)) in
    Running (if p <=? LONG_MAX then p else -1) st.

(** Lines 130-140: the image size, the warning about a partial last sector
    and the number of whole sectors. *)
Definition geometry (l : layout) : M Z :=
  xfseek src 0 SEEK_END ;;
  img_sz <- ftell src ;;
  if img_sz =? -1 then die Cannot_determine_source_file_size
  else
    let tail_sz := img_sz mod sector_sz l in
    (if negb (tail_sz =? 0)
     then warn (Image_size_not_factor (sector_sz l) tail_sz)
     else ret tt) ;;
    let nr_sectors := img_sz / sector_sz l in
    rewind src ;;
    ret nr_sectors.

(** Lines 107-149: from the probe read to the end of the sector loop. *)
Definition convert : M unit :=
  xfread 0 16 src ;;
  l <- detect ;;
  nr_sectors <- geometry l ;;
  for_long 0 nr_sectors (copy_sector l).

(** Lines 101-156 of [main], once the two file names are known. *)
Definition main : M unit :=
  fopen_rb src ;;
  fopen_wb dst ;;
  convert ;;
  fclose dst ;;
  fclose src ;;
  exit EXIT_SUCCESS.

(** The state in which [main] starts: the image file, whatever the
    destination file held before, an empty stderr, and the automatic array
    [buf] of 2352 chars with indeterminate values [junk]. *)
Definition boot (junk : nat -> byte) (image old_iso : list byte) : state :=
  mkState (mkFILE image 0) (mkFILE old_iso 0) []
          (map junk (seq 0 2352)).

Definition run (junk : nat -> byte) (image old_iso : list byte) : outcome unit :=
  main (boot junk image old_iso).

End Platform.

(** ** What the program is expected to compute *)

Definition Mode2_2336 : layout := mkLayout x00 8 2336.
Definition Mode1_2352 : layout := mkLayout x01 16 2352.
Definition Mode2_2352 : layout := mkLayout x02 24 2352.

Definition known_layout (l : layout) : Prop :=
  l = Mode1_2352 \/ l = Mode2_2352 \/ l = Mode2_2336.

Definition header_size (l : layout) : nat := Z.to_nat (hdr_sz l).
Definition sector_size (l : layout) : nat := Z.to_nat (sector_sz l).

(** Sector [i] of an image cut into sectors of [sz] bytes. *)
Definition sector (sz : nat) (image : list byte) (i : nat) : list byte :=
  firstn sz (skipn (i * sz) image).

(** The 2048 bytes of user data of one sector. *)
Definition payload (l : layout) (s : list byte) : list byte :=
  firstn 2048 (skipn (header_size l) s).

Definition payloads (l : layout) (image : list byte) (lo n : nat) : list byte :=
  flat_map (fun i => payload l (sector (sector_size l) image i)) (seq lo n).

(** The mode byte of a sector is checked, and differs from the mode found at
    detection. *)
Definition mismatch (l : layout) (s : list byte) : bool :=
  negb (Byte.eqb (mode l) x00)
  && negb (Byte.eqb (nth MODE_OFFSET s x00) (mode l)).

Definition mode_warning (l : layout) (image : list byte) (i : nat) : line :=
  Warning (Sector_has_different_mode (Z.of_nat i)
             (nth MODE_OFFSET (sector (sector_size l) image i) x00) (mode l)).

(** What iteration [i] of the sector loop puts on stderr. *)
Definition sector_lines (l : layout) (image : list byte) (i : nat) : list line :=
  if mismatch l (sector (sector_size l) image i)
  then [mode_warning l image i] else [].

(** Number of whole sectors of an image. *)
Definition sector_count (l : layout) (image : list byte) : nat :=
  (length image / sector_size l)%nat.

Definition mode_warnings (l : layout) (image : list byte) (lo n : nat) : list line :=
  map (mode_warning l image)
      (filter (fun i => mismatch l (sector (sector_size l) image i)) (seq lo n)).

Definition size_warning (l : layout) (image : list byte) : list line :=
  let tail := (Z.of_nat (length image)) mod sector_sz l in
  if tail =? 0 then []
  else [Warning (Image_size_not_factor (sector_sz l) tail)].

(** The layout as the specification words it: the first 12 bytes of the
    probe against the sync header, then the byte at offset 15. *)
Definition detect_layout (probe : list byte) : layout + fatal :=
  if list_eq_dec byte_eq_dec (firstn 12 probe) SYNC_HEADER then
    if byte_eq_dec (nth 15 probe x00) x01 then inl Mode1_2352
    else if byte_eq_dec (nth 15 probe x00) x02 then inl Mode2_2352
    else inr (Unsupported_track_mode (nth 15 probe x00))
  else inl Mode2_2336.

(** The state once both files are open, and the state once the probe read of
    16 bytes has succeeded. *)
Definition opened (junk : nat -> byte) (image : list byte) : state :=
  mkState (mkFILE image 0) (mkFILE [] 0) [] (map junk (seq 0 2352)).

Definition probed (junk : nat -> byte) (image : list byte) : state :=
  mkState (mkFILE image 16) (mkFILE [] 0) []
          (firstn 16 image ++ skipn 16 (map junk (seq 0 2352))).

(** Header size and sector size of the three layouts. *)
Definition layout_table : list (layout * nat * nat) :=
  [ (Mode1_2352, 16%nat, 2352%nat);
    (Mode2_2352, 24%nat, 2352%nat);
    (Mode2_2336, 8%nat, 2336%nat) ].

(** What a run leaves behind: the bytes of the destination file and the
    lines on stderr. *)
Definition iso_of (o : outcome unit) : list byte :=
  contents (dst_file (final_state o)).

Definition lines_of (o : outcome unit) : list line :=
  stderr (final_state o).

(** What a user can observe of a run: exit status, destination bytes and
    stderr lines. *)
Definition observable (o : outcome unit) : option exit_status * list byte * list line :=
  (exit_code o, iso_of o, lines_of o).

Definition is_mode_warning (x : line) : bool :=
  match x with
  | Warning (Sector_has_different_mode _ _ _) => true
  | _ => false
  end.

Definition is_size_warning (x : line) : bool :=
  match x with
  | Warning (Image_size_not_factor _ _) => true
  | _ => false
  end.

(** The result expected of a conversion, as a function of the image. *)
Definition expected (LONG_MAX : Z) (image : list byte)
  : option exit_status * list byte * list line :=
  if (length image <? 16)%nat then
    (Some EXIT_FAILURE, [], [Fatal Read_error])
  else
    match detect_layout (firstn 16 image) with
    | inr e => (Some EXIT_FAILURE, [], [Fatal e])
    | inl l =>
        if Z.of_nat (length image) <=? LONG_MAX then
          (Some EXIT_SUCCESS,
           payloads l image 0 (sector_count l image),
           size_warning l image ++ mode_warnings l image 0 (sector_count l image))
        else
          (Some EXIT_FAILURE, [], [Fatal Cannot_determine_source_file_size])
    end.

(** ** Concrete images *)

(** [LONG_MAX] where [long] has 64 bits. *)
Definition LP64_LONG_MAX : Z := 9223372036854775807.

(** A Mode 1 sector of 2352 bytes: sync header, three address bytes, mode
    byte 1, 2048 data bytes [fill] and 288 bytes of ECC. *)
Definition mode1_sector (fill : byte) : list byte :=
  SYNC_HEADER ++ [x00; x02; x00; x01] ++ repeat fill 2048 ++ repeat xff 288.

(** A Mode 2 sector of 2352 bytes: sync header, address, mode byte 2, a
    subheader of 8 bytes, 2048 data bytes and 280 bytes of ECC. *)
Definition mode2_sector (fill : byte) : list byte :=
  SYNC_HEADER ++ [x00; x02; x00; x02]
    ++ repeat x00 8 ++ repeat fill 2048 ++ repeat xff 280.

(** A Mode 2 sector of 2336 bytes: subheader, data and ECC only. *)
Definition bare_sector (fill : byte) : list byte :=
  repeat x00 8 ++ repeat fill 2048 ++ repeat xff 280.

(** Two whole Mode 1 sectors. *)
Definition mode1_image : list byte := mode1_sector "A" ++ mode1_sector "B".

(** Two whole Mode 2 sectors with sync header. *)
Definition mode2_image : list byte := mode2_sector "A" ++ mode2_sector "B".

(** Two whole sectors without sync header. *)
Definition headerless_image : list byte := bare_sector "A" ++ bare_sector "B".

(** A Mode 1 sector, a sector whose mode byte says 2, and two more bytes. *)
Definition ragged_image : list byte :=
  mode1_sector "A" ++ mode2_sector "B" ++ [x01; x02].

(** A sector with sync header and mode byte 7. *)
Definition mode7_image : list byte :=
  SYNC_HEADER ++ [x00; x02; x00; x07] ++ repeat "A"%byte 2336.

(** The first 100 bytes of a Mode 1 sector. *)
Definition stub_image : list byte := firstn 100 (mode1_sector "A").

Definition junk0 : nat -> byte := fun _ => xaa.
Definition junk1 : nat -> byte := fun i => if Nat.even i then x55 else x00.

Definition stale_iso : list byte := repeat xee 5000.

(** ** The sector structures listed at the head of the source

    Lines 7-11 of the source give the fields of a sector in each layout.
    The functions below lay the fields out in that order. *)

Record fields : Type := mkFields {
  f_address : list byte;      (* Address (3) *)
  f_subheader : list byte;    (* Subheader (8), Mode 2 only *)
  f_data : list byte;         (* Data (2048) *)
  f_ecc : list byte           (* ECC (288 or 280) *)
}.

(** Mode 1 (2352): Sync (12), Address (3), Mode (1), Data (2048), ECC (288) *)
Definition frame_mode1 (s : fields) : list byte :=
  SYNC_HEADER ++ f_address s ++ [x01] ++ f_data s ++ f_ecc s.

Definition fields_mode1 (s : fields) : Prop :=
  length (f_address s) = 3%nat
  /\ length (f_data s) = 2048%nat
  /\ length (f_ecc s) = 288%nat.

(** Mode 2 (2352): Sync (12), Address (3), Mode (1), Subheader (8),
    Data (2048), ECC (280) *)
Definition frame_mode2 (s : fields) : list byte :=
  SYNC_HEADER ++ f_address s ++ [x02] ++ f_subheader s ++ f_data s ++ f_ecc s.

Definition fields_mode2 (s : fields) : Prop :=
  length (f_address s) = 3%nat
  /\ length (f_subheader s) = 8%nat
  /\ length (f_data s) = 2048%nat
  /\ length (f_ecc s) = 280%nat.

(** Mode 2 (2336): Subheader (8), Data (2048), ECC (280) *)
Definition frame_2336 (s : fields) : list byte :=
  f_subheader s ++ f_data s ++ f_ecc s.

Definition fields_2336 (s : fields) : Prop :=
  length (f_subheader s) = 8%nat
  /\ length (f_data s) = 2048%nat
  /\ length (f_ecc s) = 280%nat.

(** ** The name of the destination (lines 93-98)

    A string is the memory from a pointer on: its characters, the
    terminating NUL, and whatever follows.  [argv[1] + k] is [skipn k], and
    a pointer into the block that [dstname] points to is an index into the
    list of its bytes. *)

Definition BIN_CHARS : list byte := ["."%byte; "b"%byte; "i"%byte; "n"%byte].
Definition ISO_CHARS : list byte := ["."%byte; "i"%byte; "s"%byte; "o"%byte].

(** The string literals [".bin"] and [".iso"]. *)
Definition DOT_BIN : list byte := BIN_CHARS ++ [x00].
Definition DOT_ISO : list byte := ISO_CHARS ++ [x00].

(** The number of characters before the first NUL.  Memory past the end of
    the list is not modelled: the strings of the theorems have their NUL
    inside the list. *)
Fixpoint strlen (s : list byte) : nat :=
  match s with
  | [] => 0
  | c :: s' => if Byte.eqb c x00 then 0 else S (strlen s')
  end.

(** Comparison up to the first difference or the common NUL, as unsigned
    chars. *)
Fixpoint strcmp (s1 s2 : list byte) : Z :=
  match s1, s2 with
  | a :: s1', b :: s2' =>
      if Byte.eqb a b then
        if Byte.eqb a x00 then 0 else strcmp s1' s2'
      else Z.of_N (Byte.to_N a) - Z.of_N (Byte.to_N b)
  | _, _ => 0
  end.

(** [strcpy(&block[ptr], s)]: the characters of [s] and its NUL go into the
    block from index [ptr] on; what is written past the last byte of the
    block lengthens the list. *)
Definition strcpy (ptr : nat) (s block : list byte) : list byte :=
  store ptr (firstn (strlen s + 1) s) block.

(** Lines 93-95: the value of [namelen] that is passed to [xmalloc].  The
    subtraction [namelen - 4] is only evaluated when [namelen >= 5]. *)
Definition dst_namelen (argv1 : list byte) : nat :=
  let namelen := strlen argv1 in
  if (namelen <? 5)%nat
     || negb (strcmp (skipn (namelen - 4) argv1) DOT_BIN =? 0)
  then (namelen + 4)%nat
  else namelen.

(** Lines 97-98: the two copies into the block [dstname] points to. *)
Definition write_dstname (argv1 block : list byte) : list byte :=
  strcpy (dst_namelen argv1 - 4) DOT_ISO (strcpy 0 argv1 block).


(** A sector as the bytes before the data, the data and the bytes after. *)
Definition join (p : list byte * list byte * list byte) : list byte :=
  let '(hdr, data, trailer) := p in hdr ++ data ++ trailer.

Definition data_of (p : list byte * list byte * list byte) : list byte :=
  let '(_, data, _) := p in data.

(** The sector indices of the mode warnings among some lines, in the order
    of the lines. *)
Definition warned_sectors (ls : list line) : list Z :=
  flat_map (fun x =>
              match x with
              | Warning (Sector_has_different_mode i _ _) => [i]
              | _ => []
              end) ls.

Definition is_fatal (x : line) : bool :=
  match x with
  | Fatal _ => true
  | Warning _ => false
  end.

(** ** More concrete inputs *)

(** [LONG_MAX] where [long] has 32 bits. *)
Definition ILP32_LONG_MAX : Z := 2147483647.

(** A Mode 1 sector followed by 2^31 more bytes. *)
Definition huge_image : list byte :=
  mode1_sector "A" ++ repeat x00 (Z.to_nat 2147483648).

Definition fields_A : fields :=
  mkFields [x00; x02; x00] (repeat x00 8) (repeat "A"%byte 2048) (repeat xff 288).

Definition fields_B : fields :=
  mkFields [x00; x02; x01] (repeat x00 8) (repeat "B"%byte 2048) (repeat xee 288).

Definition fields_C : fields :=
  mkFields [x00; x02; x00] (repeat x00 8) (repeat "C"%byte 2048) (repeat xff 280).

Definition fields_D : fields :=
  mkFields [x00; x02; x01] (repeat x01 8) (repeat "D"%byte 2048) (repeat xee 280).

(** The characters of ["img.bin"] and of ["notes"]. *)
Definition img_bin : list byte :=
  ["i"%byte; "m"%byte; "g"%byte; "."%byte; "b"%byte; "i"%byte; "n"%byte].


(** ** Lists of bytes *)

Lemma store_front (data b : list byte) :
  store 0 data b = data ++ skipn (length data) b.
Proof. reflexivity. Qed.

Lemma store_end (data c : list byte) :
  store (length c) data c = c ++ data.
Proof.
  unfold store. rewrite firstn_all, skipn_all2 by lia.
  now rewrite app_nil_r.
Qed.

Lemma length_sector (sz : nat) (image : list byte) (i : nat) :
  ((i + 1) * sz <= length image)%nat -> length (sector sz image i) = sz.
Proof.
  intros H. unfold sector. rewrite length_firstn, length_skipn. lia.
Qed.

Lemma firstn_skipn_front (n h : nat) (s rest : list byte) :
  (h + n <= length s)%nat ->
  firstn n (skipn h (s ++ rest)) = firstn n (skipn h s).
Proof.
  intros H. rewrite skipn_app, firstn_app, length_skipn.
  replace (n - (length s - h))%nat with 0%nat by lia.
  now rewrite firstn_O, app_nil_r.
Qed.

Lemma nth_front (k : nat) (s rest : list byte) :
  (k < length s)%nat -> nth k (s ++ rest) x00 = nth k s x00.
Proof. intros H. now apply app_nth1. Qed.

Lemma nth_error_sector (sz : nat) (image : list byte) (i r : nat) :
  (r < sz)%nat ->
  nth_error (sector sz image i) r = nth_error image (i * sz + r).
Proof.
  intros H. unfold sector. rewrite nth_error_firstn.
  destruct (Nat.ltb_spec r sz); [ | lia ].
  now rewrite nth_error_skipn.
Qed.

Lemma nth_sector (sz : nat) (image : list byte) (i r : nat) :
  (r < sz)%nat ->
  nth r (sector sz image i) x00 = nth (i * sz + r) image x00.
Proof.
  intros H. unfold sector. rewrite nth_firstn.
  destruct (Nat.ltb_spec r sz); [ | lia ].
  now rewrite nth_skipn.
Qed.

(** ** The monad *)

Lemma bind_Running {A B : Type} (c : M A) (k : A -> M B) st a st' :
  c st = Running a st' -> bind c k st = k a st'.
Proof. intros H. unfold bind. now rewrite H. Qed.

Lemma bind_Exited {A B : Type} (c : M A) (k : A -> M B) st status st' :
  c st = Exited status st' -> bind c k st = Exited status st'.
Proof. intros H. unfold bind. now rewrite H. Qed.

(** The counted loop runs as the [for] statement does: test, body,
    increment, and again. *)
Lemma for_long_unroll (lo hi : Z) (body : Z -> M unit) :
  for_long lo hi body =
  if lo <? hi then (body lo ;; for_long (lo + 1) hi body) else ret tt.
Proof.
  unfold for_long. destruct (Z.ltb_spec lo hi) as [Hlt | Hge].
  - replace (Z.to_nat (hi - lo)) with (S (Z.to_nat (hi - (lo + 1)))) by lia.
    reflexivity.
  - now replace (Z.to_nat (hi - lo)) with 0%nat by lia.
Qed.

(** ** The reads and writes of the program *)

(** A read of [n] bytes that the source still holds. *)
Lemma xfread_ok (sz : Z) (st : state) image p :
  src_file st = mkFILE image p ->
  0 < sz ->
  (p + Z.to_nat sz <= length image)%nat ->
  xfread 0 sz src st =
  Running tt
    (mkState (mkFILE image (p + Z.to_nat sz)) (dst_file st) (stderr st)
       (firstn (Z.to_nat sz) (skipn p image)
          ++ skipn (Z.to_nat sz) (buf st))).
Proof.
  intros Hs Hsz Hlen. unfold xfread, bind, fread. cbn [get_file].
  rewrite Hs. cbn [position contents].
  destruct (Z.ltb_spec 0 sz); [ | lia ].
  destruct (Nat.leb_spec (Z.to_nat sz) (length (skipn p image)))
    as [_ | Hlt]; [ | rewrite length_skipn in Hlt; lia ].
  cbn [Z.eqb Pos.eqb negb]. unfold ret, set_buf, set_file.
  cbn [src_file dst_file stderr buf].
  rewrite store_front, length_firstn, length_skipn.
  now replace (Nat.min (Z.to_nat sz) (length image - p)) with (Z.to_nat sz) by lia.
Qed.

(** A read of more bytes than the source still holds ends the program. *)
Lemma xfread_short (sz : Z) (st : state) :
  0 < sz ->
  (length (contents (src_file st)) < position (src_file st) + Z.to_nat sz)%nat ->
  exists st',
    xfread 0 sz src st = Exited EXIT_FAILURE st'
    /\ dst_file st' = dst_file st
    /\ stderr st' = stderr st ++ [Fatal Read_error].
Proof.
  intros Hsz Hlen. unfold xfread, bind, fread. cbn [get_file].
  destruct (Z.ltb_spec 0 sz); [ | lia ].
  destruct (Nat.leb_spec (Z.to_nat sz)
              (length (skipn (position (src_file st)) (contents (src_file st)))))
    as [Hle | _]; [ rewrite length_skipn in Hle; lia | ].
  cbn [Z.eqb negb]. unfold die. eexists. split; [ reflexivity | ].
  now split.
Qed.

(** A write of [n] bytes of the buffer at the end of the destination. *)
Lemma xfwrite_end (ptr : nat) (sz : Z) (st : state) out :
  dst_file st = mkFILE out (length out) ->
  0 < sz ->
  (ptr + Z.to_nat sz <= length (buf st))%nat ->
  xfwrite ptr sz dst st =
  Running tt
    (mkState (src_file st)
       (mkFILE (out ++ firstn (Z.to_nat sz) (skipn ptr (buf st)))
               (length out + Z.to_nat sz))
       (stderr st) (buf st)).
Proof.
  intros Hd Hsz Hlen. unfold xfwrite, bind, fwrite. cbn [get_file].
  destruct (Z.ltb_spec 0 sz); [ | lia ].
  rewrite Hd. cbn [position contents Z.eqb Pos.eqb negb].
  unfold ret, set_file. rewrite store_end, length_firstn, length_skipn.
  now replace (Nat.min (Z.to_nat sz) (length (buf st) - ptr))
    with (Z.to_nat sz) by lia.
Qed.

(** ** One iteration of the sector loop *)

Lemma known_layout_bounds (l : layout) :
  known_layout l ->
  0 < sector_sz l
  /\ (header_size l + 2048 <= sector_size l)%nat
  /\ (sector_size l <= 2352)%nat
  /\ (MODE_OFFSET < sector_size l)%nat.
Proof.
  unfold header_size, sector_size, MODE_OFFSET.
  intros [-> | [-> | ->]]; cbn [sector_sz hdr_sz Mode1_2352 Mode2_2352 Mode2_2336];
    lia.
Qed.

Lemma copy_sector_ok (l : layout) (image out : list byte) (i : nat) (st : state) :
  known_layout l ->
  src_file st = mkFILE image (i * sector_size l) ->
  dst_file st = mkFILE out (length out) ->
  ((i + 1) * sector_size l <= length image)%nat ->
  length (buf st) = 2352%nat ->
  copy_sector l (Z.of_nat i) st =
  Running tt
    (mkState (mkFILE image ((i + 1) * sector_size l))
       (mkFILE (out ++ payload l (sector (sector_size l) image i))
               (length out + 2048))
       (stderr st ++ sector_lines l image i)
       (sector (sector_size l) image i ++ skipn (sector_size l) (buf st))).
Proof.
  intros Hl Hs Hd Hlen Hbuf.
  destruct (known_layout_bounds l Hl) as (Hsz & Hhdr & Hmax & Hmode).
  unfold copy_sector.
  rewrite (bind_Running _ _ _ _ _
             (xfread_ok (sector_sz l) st image (i * sector_size l) Hs Hsz
                ltac:(unfold sector_size in *; lia))).
  fold (sector_size l). fold (sector (sector_size l) image i).
  set (s := sector (sector_size l) image i).
  assert (Hs_len : length s = sector_size l) by (now apply length_sector).
  unfold bind at 1, load_buf. cbn [buf].
  rewrite nth_front by lia.
  fold (mismatch l s).
  set (st1 := mkState _ _ _ _).
  assert (Hw : exists st2,
    (if mismatch l s
     then warn (Sector_has_different_mode (Z.of_nat i) (nth MODE_OFFSET s x00) (mode l))
     else ret tt) st1 = Running tt st2
    /\ src_file st2 = src_file st1 /\ dst_file st2 = dst_file st1
    /\ buf st2 = buf st1 /\ stderr st2 = stderr st ++ sector_lines l image i).
  { unfold sector_lines. fold s. destruct (mismatch l s).
    - eexists. split; [ reflexivity | ]. now repeat split.
    - eexists. split; [ reflexivity | ]. cbn. rewrite app_nil_r. now repeat split. }
  destruct Hw as (st2 & Hrun & H2s & H2d & H2b & H2e).
  rewrite (bind_Running _ _ _ _ _ Hrun).
  rewrite (xfwrite_end _ 2048 st2 out).
  - rewrite H2s, H2b, H2e. subst st1. cbn [src_file buf].
    fold (header_size l). change (Z.to_nat 2048) with 2048%nat.
    rewrite firstn_skipn_front by lia.
    fold (payload l s).
    now replace (i * sector_size l + sector_size l)%nat
      with ((i + 1) * sector_size l)%nat by lia.
  - rewrite H2d. subst st1. cbn [dst_file]. exact Hd.
  - lia.
  - rewrite H2b. subst st1. cbn [buf]. fold (header_size l).
    change (Z.to_nat 2048) with 2048%nat.
    rewrite length_app, length_skipn. lia.
Qed.

(** ** The sector loop *)

Lemma length_payload (l : layout) (image : list byte) (i : nat) :
  known_layout l ->
  ((i + 1) * sector_size l <= length image)%nat ->
  length (payload l (sector (sector_size l) image i)) = 2048%nat.
Proof.
  intros Hl Hlen. destruct (known_layout_bounds l Hl) as (_ & Hhdr & _).
  unfold payload. rewrite length_firstn, length_skipn, length_sector by exact Hlen.
  lia.
Qed.

Lemma length_payloads (l : layout) (image : list byte) (n : nat) :
  known_layout l ->
  forall lo, ((lo + n) * sector_size l <= length image)%nat ->
  length (payloads l image lo n) = (n * 2048)%nat.
Proof.
  intros Hl. unfold payloads. induction n as [ | n IH]; intros lo Hlen.
  - reflexivity.
  - cbn [seq flat_map]. rewrite length_app, IH by lia.
    rewrite length_payload by (assumption || lia). lia.
Qed.

Lemma mode_warnings_flat (l : layout) (image : list byte) (lo n : nat) :
  mode_warnings l image lo n = flat_map (sector_lines l image) (seq lo n).
Proof.
  unfold mode_warnings. generalize (seq lo n) as js.
  induction js as [ | j js IH]; [ reflexivity | ].
  cbn [filter flat_map]. unfold sector_lines at 1.
  destruct (mismatch l (sector (sector_size l) image j)); cbn [map app];
    now rewrite IH.
Qed.

Lemma for_count_copy (l : layout) (image : list byte) (n : nat) :
  known_layout l ->
  forall (i : nat) (st : state) (out : list byte),
    src_file st = mkFILE image (i * sector_size l) ->
    dst_file st = mkFILE out (length out) ->
    ((i + n) * sector_size l <= length image)%nat ->
    length (buf st) = 2352%nat ->
    exists b,
      length b = 2352%nat
      /\ for_count n (Z.of_nat i) (copy_sector l) st =
         Running tt
           (mkState (mkFILE image ((i + n) * sector_size l))
              (mkFILE (out ++ payloads l image i n) (length out + n * 2048))
              (stderr st ++ mode_warnings l image i n) b).
Proof.
  intros Hl. destruct (known_layout_bounds l Hl) as (_ & _ & Hmax & _).
  induction n as [ | n IH]; intros i st out Hs Hd Hlen Hbuf.
  - exists (buf st). split; [ exact Hbuf | ]. cbn [for_count]. unfold ret.
    rewrite mode_warnings_flat. unfold payloads. cbn [seq flat_map].
    rewrite !app_nil_r, !Nat.add_0_r. destruct st as [fs fd e b].
    cbn [src_file dst_file stderr buf] in *. now subst.
  - cbn [for_count].
    rewrite (bind_Running _ _ _ _ _
               (copy_sector_ok l image out i st Hl Hs Hd ltac:(lia) Hbuf)).
    set (s := sector (sector_size l) image i).
    assert (Hs_len : length s = sector_size l)
      by (apply length_sector; lia).
    replace (Z.of_nat i + 1) with (Z.of_nat (i + 1)) by lia.
    assert (Hp : length (payload l s) = 2048%nat)
      by (apply length_payload; [ assumption | lia ]).
    destruct (IH (i + 1)%nat
                (mkState (mkFILE image ((i + 1) * sector_size l))
                   (mkFILE (out ++ payload l s) (length out + 2048))
                   (stderr st ++ sector_lines l image i)
                   (s ++ skipn (sector_size l) (buf st)))
                (out ++ payload l s)) as (b & Hb & Hrun).
    + reflexivity.
    + cbn [dst_file]. now rewrite length_app, Hp.
    + lia.
    + cbn [buf]. rewrite length_app, length_skipn. lia.
    + exists b. split; [ exact Hb | ]. rewrite Hrun.
      cbn [stderr]. rewrite !mode_warnings_flat. unfold payloads.
      cbn [seq flat_map]. fold s.
      rewrite <- (app_assoc out), <- (app_assoc (stderr st)), length_app, Hp.
      replace (S i) with (i + 1)%nat by lia.
      replace ((i + 1 + n) * sector_size l)%nat
        with ((i + S n) * sector_size l)%nat by lia.
      replace (length out + 2048 + n * 2048)%nat
        with (length out + S n * 2048)%nat by lia.
      reflexivity.
Qed.

(** ** Detection *)

Lemma to_N_inj (a b : byte) : Byte.to_N a = Byte.to_N b -> a = b.
Proof.
  intros H. assert (E : Some a = Some b)
    by (rewrite <- (Byte.of_to_N a), <- (Byte.of_to_N b); now rewrite H).
  now injection E.
Qed.

Lemma memcmp_zero (n : nat) :
  forall s1 s2 : list byte,
    (n <= length s1)%nat -> (n <= length s2)%nat ->
    memcmp s1 s2 n = 0 <-> firstn n s1 = firstn n s2.
Proof.
  induction n as [ | n IH]; intros s1 s2 H1 H2.
  - cbn. split; reflexivity.
  - destruct s1 as [ | a s1]; [ cbn in H1; lia | ].
    destruct s2 as [ | b s2]; [ cbn in H2; lia | ].
    cbn [memcmp firstn length] in *.
    destruct (Byte.eqb a b) eqn:E.
    + apply byte_dec_bl in E. subst b. rewrite IH by lia.
      split; [ now intros -> | now intros [= ->] ].
    + apply eqb_false in E. split.
      * intros H. exfalso. apply E, to_N_inj. lia.
      * intros [= H _]. contradiction.
Qed.

Lemma detect_spec (st : state) (probe rest : list byte) :
  buf st = probe ++ rest ->
  length probe = 16%nat ->
  detect st =
  match detect_layout probe with
  | inl l => Running l st
  | inr e => Exited EXIT_FAILURE (put_line (Fatal e) st)
  end.
Proof.
  intros Hb Hp. unfold detect, bind, load_buf, detect_layout. rewrite Hb.
  change (length SYNC_HEADER) with 12%nat.
  rewrite (nth_front MODE_OFFSET) by (unfold MODE_OFFSET; lia).
  change MODE_OFFSET with 15%nat.
  assert (Hm : memcmp SYNC_HEADER (probe ++ rest) 12 = 0
               <-> firstn 12 probe = SYNC_HEADER).
  { rewrite memcmp_zero by (rewrite ?length_app; cbn [length SYNC_HEADER]; lia).
    rewrite firstn_app, Hp. cbn [Nat.sub firstn]. rewrite app_nil_r.
    change (firstn 12 SYNC_HEADER) with SYNC_HEADER.
    split; intros H; now symmetry. }
  destruct (list_eq_dec byte_eq_dec (firstn 12 probe) SYNC_HEADER) as [Heq | Hne].
  - apply Hm in Heq. rewrite Heq. cbn [Z.eqb negb].
    destruct (byte_eq_dec (nth 15 probe x00) x01) as [E1 | N1].
    + rewrite E1. reflexivity.
    + destruct (byte_eq_dec (nth 15 probe x00) x02) as [E2 | N2].
      * rewrite E2. reflexivity.
      * destruct (Byte.eqb (nth 15 probe x00) x02) eqn:B2;
          [ apply byte_dec_bl in B2; contradiction | ].
        destruct (Byte.eqb (nth 15 probe x00) x01) eqn:B1;
          [ apply byte_dec_bl in B1; contradiction | ].
        reflexivity.
  - destruct (Z.eqb_spec (memcmp SYNC_HEADER (probe ++ rest) 12) 0) as [E | _].
    + apply Hm in E. contradiction.
    + reflexivity.
Qed.

Lemma detect_layout_known (probe : list byte) (l : layout) :
  detect_layout probe = inl l -> known_layout l.
Proof.
  unfold detect_layout, known_layout.
  destruct (list_eq_dec _ _ _);
    [ destruct (byte_eq_dec _ x01); [ | destruct (byte_eq_dec _ x02) ] | ];
    intros [= <-]; auto.
Qed.

(** ** Geometry *)

Lemma sector_count_Z (l : layout) (image : list byte) :
  0 < sector_sz l ->
  Z.of_nat (length image) / sector_sz l = Z.of_nat (sector_count l image).
Proof.
  intros H. unfold sector_count, sector_size.
  rewrite Nat2Z.inj_div, Z2Nat.id by lia. reflexivity.
Qed.

Lemma sector_count_le (l : layout) (image : list byte) :
  (sector_count l image * sector_size l <= length image)%nat.
Proof.
  unfold sector_count.
  destruct (Nat.eq_dec (sector_size l) 0) as [-> | Hnz]; [ lia | ].
  rewrite Nat.mul_comm. now apply Nat.Div0.mul_div_le.
Qed.

Section Correctness.

Variable LONG_MAX : Z.
Hypothesis LONG_MAX_min : 2147483647 <= LONG_MAX.

Lemma xfseek_end (st : state) (image : list byte) (p : nat) :
  src_file st = mkFILE image p ->
  xfseek src 0 SEEK_END st =
  Running tt
    (mkState (mkFILE image (length image)) (dst_file st) (stderr st) (buf st)).
Proof.
  intros Hs. unfold xfseek, fseek, bind. cbn [get_file]. rewrite Hs.
  cbn [contents]. rewrite Z.add_0_r.
  destruct (Z.ltb_spec (Z.of_nat (length image)) 0); [ lia | ].
  cbn [Z.eqb negb]. unfold ret, set_file. now rewrite Nat2Z.id.
Qed.

Lemma ftell_at (st : state) (image : list byte) (p : nat) :
  src_file st = mkFILE image p ->
  ftell LONG_MAX src st =
  Running (if Z.of_nat p <=? LONG_MAX then Z.of_nat p else -1) st.
Proof. intros Hs. unfold ftell. cbn [get_file]. now rewrite Hs. Qed.

Lemma geometry_ok (l : layout) (st : state) (image : list byte) (p : nat) :
  0 < sector_sz l ->
  src_file st = mkFILE image p ->
  Z.of_nat (length image) <= LONG_MAX ->
  geometry LONG_MAX l st =
  Running (Z.of_nat (sector_count l image))
    (mkState (mkFILE image 0) (dst_file st)
       (stderr st ++ size_warning l image) (buf st)).
Proof.
  intros Hsz Hs Hmax. unfold geometry.
  rewrite (bind_Running _ _ _ _ _ (xfseek_end st image p Hs)).
  rewrite (bind_Running _ _ _ _ _
             (ftell_at (mkState (mkFILE image (length image)) (dst_file st)
                          (stderr st) (buf st))
                image (length image) eq_refl)).
  destruct (Z.leb_spec (Z.of_nat (length image)) LONG_MAX); [ | lia ].
  destruct (Z.eqb_spec (Z.of_nat (length image)) (-1)); [ lia | ].
  rewrite sector_count_Z by exact Hsz. unfold size_warning.
  destruct (Z.of_nat (length image) mod sector_sz l =? 0); cbn [negb];
    unfold bind, ret, warn, rewind, put_line, set_file;
    cbn [get_file src_file dst_file stderr buf contents];
    rewrite ?app_nil_r; reflexivity.
Qed.

Lemma geometry_overflow (l : layout) (st : state) (image : list byte) (p : nat) :
  src_file st = mkFILE image p ->
  LONG_MAX < Z.of_nat (length image) ->
  geometry LONG_MAX l st =
  Exited EXIT_FAILURE
    (mkState (mkFILE image (length image)) (dst_file st)
       (stderr st ++ [Fatal Cannot_determine_source_file_size]) (buf st)).
Proof.
  intros Hs Hmax. unfold geometry.
  rewrite (bind_Running _ _ _ _ _ (xfseek_end st image p Hs)).
  rewrite (bind_Running _ _ _ _ _
             (ftell_at (mkState (mkFILE image (length image)) (dst_file st)
                          (stderr st) (buf st))
                image (length image) eq_refl)).
  destruct (Z.leb_spec (Z.of_nat (length image)) LONG_MAX); [ lia | ].
  reflexivity.
Qed.

(** ** The whole conversion, case by case *)

Lemma probe_ok (junk : nat -> byte) (image : list byte) :
  (16 <= length image)%nat ->
  xfread 0 16 src (opened junk image) = Running tt (probed junk image).
Proof.
  intros H.
  rewrite (xfread_ok 16 (opened junk image) image 0 eq_refl); [ | lia | ].
  - reflexivity.
  - change (Z.to_nat 16) with 16%nat. lia.
Qed.

Lemma detect_probed (junk : nat -> byte) (image : list byte) :
  (16 <= length image)%nat ->
  detect (probed junk image) =
  match detect_layout (firstn 16 image) with
  | inl l => Running l (probed junk image)
  | inr e => Exited EXIT_FAILURE (put_line (Fatal e) (probed junk image))
  end.
Proof.
  intros H.
  apply (detect_spec _ _ (skipn 16 (map junk (seq 0 2352)))); [ reflexivity | ].
  rewrite length_firstn. lia.
Qed.

Lemma length_probed_buf (junk : nat -> byte) (image : list byte) :
  (16 <= length image)%nat -> length (buf (probed junk image)) = 2352%nat.
Proof.
  intros H. cbn [buf probed].
  rewrite length_app, length_firstn, length_skipn, length_map, length_seq. lia.
Qed.

Lemma convert_short (junk : nat -> byte) (image : list byte) :
  (length image < 16)%nat ->
  exists st,
    convert LONG_MAX (opened junk image) = Exited EXIT_FAILURE st
    /\ dst_file st = mkFILE [] 0
    /\ stderr st = [Fatal Read_error].
Proof.
  intros H.
  destruct (xfread_short 16 (opened junk image)) as (st & Hrun & Hd & He);
    [ lia | cbn [opened src_file contents position];
            change (Z.to_nat 16) with 16%nat; lia | ].
  exists st. unfold convert. rewrite (bind_Exited _ _ _ _ _ Hrun).
  now repeat split.
Qed.

Lemma convert_unsupported (junk : nat -> byte) (image : list byte) (e : fatal) :
  (16 <= length image)%nat ->
  detect_layout (firstn 16 image) = inr e ->
  convert LONG_MAX (opened junk image) =
  Exited EXIT_FAILURE (put_line (Fatal e) (probed junk image)).
Proof.
  intros H He. unfold convert.
  rewrite (bind_Running _ _ _ _ _ (probe_ok junk image H)).
  apply bind_Exited. now rewrite detect_probed, He.
Qed.

Lemma convert_too_large (junk : nat -> byte) (image : list byte) (l : layout) :
  (16 <= length image)%nat ->
  detect_layout (firstn 16 image) = inl l ->
  LONG_MAX < Z.of_nat (length image) ->
  convert LONG_MAX (opened junk image) =
  Exited EXIT_FAILURE
    (mkState (mkFILE image (length image)) (mkFILE [] 0)
       [Fatal Cannot_determine_source_file_size] (buf (probed junk image))).
Proof.
  intros H Hl Hmax. unfold convert.
  rewrite (bind_Running _ _ _ _ _ (probe_ok junk image H)).
  rewrite (bind_Running _ _ (probed junk image) l (probed junk image))
    by (now rewrite detect_probed, Hl).
  apply bind_Exited.
  now rewrite (geometry_overflow l (probed junk image) image 16 eq_refl Hmax).
Qed.

Lemma convert_ok (junk : nat -> byte) (image : list byte) (l : layout) :
  (16 <= length image)%nat ->
  detect_layout (firstn 16 image) = inl l ->
  Z.of_nat (length image) <= LONG_MAX ->
  exists b,
    convert LONG_MAX (opened junk image) =
    Running tt
      (mkState
         (mkFILE image (sector_count l image * sector_size l))
         (mkFILE (payloads l image 0 (sector_count l image))
                 (sector_count l image * 2048))
         (size_warning l image ++ mode_warnings l image 0 (sector_count l image))
         b).
Proof.
  intros H Hl Hmax. pose proof (detect_layout_known _ _ Hl) as Hk.
  destruct (known_layout_bounds l Hk) as (Hsz & _).
  unfold convert.
  rewrite (bind_Running _ _ _ _ _ (probe_ok junk image H)).
  rewrite (bind_Running _ _ (probed junk image) l (probed junk image))
    by (now rewrite detect_probed, Hl).
  rewrite (bind_Running _ _ _ _ _
             (geometry_ok l (probed junk image) image 16 Hsz eq_refl Hmax)).
  unfold for_long. rewrite Z.sub_0_r, Nat2Z.id.
  destruct (for_count_copy l image (sector_count l image) Hk 0
              (mkState (mkFILE image 0) (dst_file (probed junk image))
                 (stderr (probed junk image) ++ size_warning l image)
                 (buf (probed junk image)))
              []) as (b & _ & Hrun).
  - reflexivity.
  - reflexivity.
  - apply sector_count_le.
  - now apply length_probed_buf.
  - exists b. exact Hrun.
Qed.

Lemma run_unfold (junk : nat -> byte) (image old_iso : list byte) :
  run LONG_MAX junk image old_iso =
  bind (convert LONG_MAX)
       (fun _ => fclose dst ;; fclose src ;; exit EXIT_SUCCESS)
       (opened junk image).
Proof. reflexivity. Qed.

Lemma run_short (junk : nat -> byte) (image old_iso : list byte) :
  (length image < 16)%nat ->
  exists st,
    run LONG_MAX junk image old_iso = Exited EXIT_FAILURE st
    /\ dst_file st = mkFILE [] 0
    /\ stderr st = [Fatal Read_error].
Proof.
  intros H. destruct (convert_short junk image H) as (st & Hrun & Hd & He).
  exists st. rewrite run_unfold, (bind_Exited _ _ _ _ _ Hrun). now repeat split.
Qed.

Lemma run_unsupported (junk : nat -> byte) (image old_iso : list byte) (e : fatal) :
  (16 <= length image)%nat ->
  detect_layout (firstn 16 image) = inr e ->
  run LONG_MAX junk image old_iso =
  Exited EXIT_FAILURE (put_line (Fatal e) (probed junk image)).
Proof.
  intros H He. rewrite run_unfold.
  apply bind_Exited. now apply convert_unsupported.
Qed.

Lemma run_too_large (junk : nat -> byte) (image old_iso : list byte) (l : layout) :
  (16 <= length image)%nat ->
  detect_layout (firstn 16 image) = inl l ->
  LONG_MAX < Z.of_nat (length image) ->
  run LONG_MAX junk image old_iso =
  Exited EXIT_FAILURE
    (mkState (mkFILE image (length image)) (mkFILE [] 0)
       [Fatal Cannot_determine_source_file_size] (buf (probed junk image))).
Proof.
  intros H Hl Hmax. rewrite run_unfold.
  apply bind_Exited. now apply (convert_too_large junk image l).
Qed.

Lemma run_ok (junk : nat -> byte) (image old_iso : list byte) (l : layout) :
  (16 <= length image)%nat ->
  detect_layout (firstn 16 image) = inl l ->
  Z.of_nat (length image) <= LONG_MAX ->
  exists b,
    run LONG_MAX junk image old_iso =
    Exited EXIT_SUCCESS
      (mkState
         (mkFILE image (sector_count l image * sector_size l))
         (mkFILE (payloads l image 0 (sector_count l image))
                 (sector_count l image * 2048))
         (size_warning l image ++ mode_warnings l image 0 (sector_count l image))
         b).
Proof.
  intros H Hl Hmax.
  destruct (convert_ok junk image l H Hl Hmax) as (b & Hrun).
  exists b. rewrite run_unfold, (bind_Running _ _ _ _ _ Hrun). reflexivity.
Qed.

(** ** The bytes of the output *)

Lemma nth_error_payload (l : layout) (image : list byte) (i r : nat) :
  known_layout l ->
  (r < 2048)%nat ->
  nth_error (payload l (sector (sector_size l) image i)) r =
  nth_error image (i * sector_size l + (header_size l + r)).
Proof.
  intros Hl Hr. destruct (known_layout_bounds l Hl) as (_ & Hhdr & _).
  unfold payload. rewrite nth_error_firstn.
  destruct (Nat.ltb_spec r 2048); [ | lia ].
  rewrite nth_error_skipn. apply nth_error_sector. lia.
Qed.

Lemma nth_error_payloads (l : layout) (image : list byte) (n : nat) :
  known_layout l ->
  (n * sector_size l <= length image)%nat ->
  forall k : nat,
    (k < n * 2048)%nat ->
    nth_error (payloads l image 0 n) k =
    nth_error image
      (header_size l + sector_size l * (k / 2048) + k mod 2048).
Proof.
  intros Hl. induction n as [ | n IH]; intros Hlen k Hk; [ lia | ].
  unfold payloads in *. rewrite seq_S, flat_map_app. cbn [flat_map Nat.add].
  rewrite app_nil_r.
  pose proof (length_payloads l image n Hl 0 ltac:(lia)) as Hpre.
  unfold payloads in Hpre.
  destruct (Nat.lt_ge_cases k (n * 2048)) as [Hlt | Hge].
  - rewrite nth_error_app1 by lia. apply IH; lia.
  - rewrite nth_error_app2 by lia. rewrite Hpre.
    rewrite nth_error_payload by (assumption || lia).
    assert (Hq : (k / 2048 = n)%nat) by
      (symmetry; apply (Nat.div_unique k 2048 n (k - n * 2048)); lia).
    assert (Hr : (k mod 2048 = k - n * 2048)%nat) by
      (symmetry; apply (Nat.mod_unique k 2048 n (k - n * 2048)); lia).
    rewrite Hq, Hr. f_equal. lia.
Qed.

(** ** The lines on stderr *)

Lemma in_mode_warnings (l : layout) (image : list byte) (n : nat) (x : line) :
  In x (mode_warnings l image 0 n) <->
  exists i : nat,
    (i < n)%nat
    /\ mismatch l (sector (sector_size l) image i) = true
    /\ x = mode_warning l image i.
Proof.
  unfold mode_warnings. rewrite in_map_iff. split.
  - intros (i & <- & Hi). apply filter_In in Hi as [Hi Hm].
    apply in_seq in Hi. exists i. repeat split; [ lia | exact Hm ].
  - intros (i & Hi & Hm & ->). exists i. split; [ reflexivity | ].
    apply filter_In. split; [ apply in_seq; lia | exact Hm ].
Qed.

Lemma no_size_warning_in_loop (l : layout) (image : list byte) (lo n : nat) :
  filter is_size_warning (mode_warnings l image lo n) = [].
Proof.
  unfold mode_warnings.
  induction (filter _ (seq lo n)) as [ | j js IH]; [ reflexivity | exact IH ].
Qed.

Lemma detected_mode (image : list byte) (l : layout) :
  detect_layout (firstn 16 image) = inl l ->
  l = Mode2_2336 \/ mode l = nth MODE_OFFSET image x00.
Proof.
  unfold detect_layout, MODE_OFFSET. rewrite nth_firstn. cbn [Nat.ltb Nat.leb].
  destruct (list_eq_dec _ _ _);
    [ destruct (byte_eq_dec _ x01) as [E | ];
      [ | destruct (byte_eq_dec _ x02) as [E | ] ] | ];
    intros [= <-]; auto; right; now rewrite E.
Qed.

Lemma sector_0_matches (image : list byte) (l : layout) :
  detect_layout (firstn 16 image) = inl l ->
  mismatch l (sector (sector_size l) image 0) = false.
Proof.
  intros Hl. unfold mismatch.
  destruct (detected_mode image l Hl) as [-> | Hm]; [ reflexivity | ].
  destruct (known_layout_bounds l (detect_layout_known _ _ Hl)) as (_ & _ & _ & Hmo).
  rewrite nth_sector by exact Hmo. cbn [Nat.mul Nat.add]. rewrite <- Hm.
  rewrite (byte_dec_lb eq_refl). cbn [negb]. apply andb_false_r.
Qed.

Lemma sector_count_whole (l : layout) (image : list byte) (N : nat) :
  known_layout l ->
  length image = (N * sector_size l)%nat ->
  sector_count l image = N.
Proof.
  intros Hl Hlen. destruct (known_layout_bounds l Hl) as (_ & Hh & _).
  unfold sector_count. rewrite Hlen. apply Nat.div_mul. lia.
Qed.

Lemma layout_table_sound (l : layout) (h s : nat) :
  In (l, h, s) layout_table ->
  known_layout l /\ h = header_size l /\ s = sector_size l.
Proof.
  unfold layout_table, known_layout.
  intros [[= <- <- <-] | [[= <- <- <-] | [[= <- <- <-] | []]]]; auto.
Qed.

Lemma run_expected (junk : nat -> byte) (image old_iso : list byte) :
  observable (run LONG_MAX junk image old_iso) = expected LONG_MAX image.
Proof.
  unfold expected, observable, iso_of, lines_of.
  destruct (Nat.ltb_spec (length image) 16) as [Hshort | Hlong].
  - destruct (run_short junk image old_iso Hshort) as (st & -> & Hd & He).
    cbn [exit_code final_state]. now rewrite Hd, He.
  - destruct (detect_layout (firstn 16 image)) as [l | e] eqn:Hl.
    + destruct (Z.leb_spec (Z.of_nat (length image)) LONG_MAX) as [Hmax | Hmax].
      * destruct (run_ok junk image old_iso l Hlong Hl Hmax) as (b & ->).
        reflexivity.
      * now rewrite (run_too_large junk image old_iso l Hlong Hl Hmax).
    + now rewrite (run_unsupported junk image old_iso e Hlong Hl).
Qed.

Lemma only_mode_warnings_in_loop (l : layout) (image : list byte) (lo n : nat) :
  filter is_mode_warning (mode_warnings l image lo n) = mode_warnings l image lo n.
Proof.
  unfold mode_warnings.
  induction (filter _ (seq lo n)) as [ | j js IH]; [ reflexivity | ].
  cbn [map filter mode_warning is_mode_warning]. now rewrite IH.
Qed.

Lemma no_mode_warning_before_loop (l : layout) (image : list byte) :
  filter is_mode_warning (size_warning l image) = [].
Proof. unfold size_warning. now destruct (_ =? 0). Qed.

Lemma payload_plain (l : layout) (image : list byte) (i : nat) :
  known_layout l ->
  ((i + 1) * sector_size l <= length image)%nat ->
  payload l (sector (sector_size l) image i) =
  firstn 2048 (skipn (i * sector_size l + header_size l) image).
Proof.
  intros Hl Hlen. destruct (known_layout_bounds l Hl) as (_ & Hhdr & _).
  unfold payload, sector.
  replace (i * sector_size l + header_size l)%nat
    with (header_size l + i * sector_size l)%nat by lia.
  rewrite <- skipn_skipn.
  set (rest := skipn (i * sector_size l) image).
  assert (Hrest : (sector_size l <= length rest)%nat)
    by (unfold rest; rewrite length_skipn; lia).
  rewrite <- (firstn_skipn_front 2048 (header_size l)
                (firstn (sector_size l) rest) (skipn (sector_size l) rest))
    by (rewrite length_firstn; lia).
  now rewrite firstn_skipn.
Qed.

(** ** The claims *)

(** C1.  An image of [N] whole sectors in one of the three layouts -- header
    size [h] and sector size [s] being (16, 2352) for Mode 1 / 2352,
    (24, 2352) for Mode 2 / 2352 and (8, 2336) for Mode 2 / 2336 -- gives a
    destination of exactly [N * 2048] bytes whose byte [k] is byte
    [h + s * (k / 2048) + k mod 2048] of the source.  The destination is the
    payloads of sectors 0, 1, ..., N-1 in that order, and the run exits with
    success when there is at least one sector. *)
Theorem whole_sectors_repacked
    (junk : nat -> byte) (image old_iso : list byte)
    (l : layout) (h s N : nat) :
  In (l, h, s) layout_table ->
  detect_layout (firstn 16 image) = inl l ->
  length image = (N * s)%nat ->
  Z.of_nat (length image) <= LONG_MAX ->
  length (iso_of (run LONG_MAX junk image old_iso)) = (N * 2048)%nat
  /\ (forall k : nat,
        (k < N * 2048)%nat ->
        nth_error (iso_of (run LONG_MAX junk image old_iso)) k =
        nth_error image (h + s * (k / 2048) + k mod 2048))
  /\ iso_of (run LONG_MAX junk image old_iso) =
     flat_map (fun i => firstn 2048 (skipn h (firstn s (skipn (i * s) image))))
              (seq 0 N)
  /\ ((0 < N)%nat ->
      exit_code (run LONG_MAX junk image old_iso) = Some EXIT_SUCCESS).
Proof.
  intros Htab Hl Hlen Hmax.
  destruct (layout_table_sound l h s Htab) as (Hk & -> & ->).
  destruct (known_layout_bounds l Hk) as (Hsz & Hhdr & _).
  assert (Hiso : iso_of (run LONG_MAX junk image old_iso) = payloads l image 0 N
                 /\ ((0 < N)%nat ->
                     exit_code (run LONG_MAX junk image old_iso) = Some EXIT_SUCCESS)).
  { destruct (Nat.lt_ge_cases (length image) 16) as [Hshort | Hlong].
    - destruct (run_short junk image old_iso Hshort) as (st & Hrun & Hd & _).
      assert (N = 0%nat) as -> by nia.
      rewrite Hrun. unfold iso_of. cbn [final_state]. rewrite Hd.
      split; [ reflexivity | lia ].
    - destruct (run_ok junk image old_iso l Hlong Hl Hmax) as (b & Hrun).
      rewrite Hrun, (sector_count_whole l image N Hk Hlen).
      split; [ reflexivity | reflexivity ]. }
  destruct Hiso as (Hiso & Hexit). rewrite Hiso.
  split; [ apply length_payloads; [ exact Hk | lia ] | ].
  split; [ apply nth_error_payloads; [ exact Hk | lia ] | ].
  split; [ reflexivity | exact Hexit ].
Qed.

(** C2.  After the probe read, detection is decided by the first 16 bytes of
    the source alone.  First 12 bytes other than the sync header: Mode 2 /
    2336, header size 8, sector size 2336, mode 0 (never checked).  Sync
    header present: byte 15 equal to 1 gives Mode 1 / 2352 with header size
    16, equal to 2 gives Mode 2 / 2352 with header size 24, and any other
    value ends the program with the unsupported-mode message. *)
Theorem detection_from_probe (junk : nat -> byte) (image : list byte) :
  (16 <= length image)%nat ->
  xfread 0 16 src (opened junk image) = Running tt (probed junk image)
  /\ (firstn 12 image <> SYNC_HEADER ->
      detect (probed junk image)
      = Running (mkLayout x00 8 2336) (probed junk image))
  /\ (firstn 12 image = SYNC_HEADER -> nth 15 image x00 = x01 ->
      detect (probed junk image)
      = Running (mkLayout x01 16 2352) (probed junk image))
  /\ (firstn 12 image = SYNC_HEADER -> nth 15 image x00 = x02 ->
      detect (probed junk image)
      = Running (mkLayout x02 24 2352) (probed junk image))
  /\ (firstn 12 image = SYNC_HEADER ->
      nth 15 image x00 <> x01 -> nth 15 image x00 <> x02 ->
      detect (probed junk image)
      = Exited EXIT_FAILURE
          (put_line (Fatal (Unsupported_track_mode (nth 15 image x00)))
             (probed junk image)))
  /\ (forall (junk' : nat -> byte) (image' : list byte),
        (16 <= length image')%nat ->
        firstn 16 image' = firstn 16 image ->
        match detect (probed junk' image'), detect (probed junk image) with
        | Running l' _, Running l _ => l' = l
        | Exited c' st', Exited c st => c' = c /\ stderr st' = stderr st
        | _, _ => False
        end).
Proof.
  intros H.
  assert (H12 : firstn 12 (firstn 16 image) = firstn 12 image)
    by (rewrite firstn_firstn; reflexivity).
  assert (H15 : nth 15 (firstn 16 image) x00 = nth 15 image x00)
    by (rewrite nth_firstn; reflexivity).
  assert (Hd : detect (probed junk image) =
               match
                 (if list_eq_dec byte_eq_dec (firstn 12 image) SYNC_HEADER
                  then
                    if byte_eq_dec (nth 15 image x00) x01 then inl Mode1_2352
                    else if byte_eq_dec (nth 15 image x00) x02 then inl Mode2_2352
                    else inr (Unsupported_track_mode (nth 15 image x00))
                  else inl Mode2_2336)
               with
               | inl l => Running l (probed junk image)
               | inr e => Exited EXIT_FAILURE (put_line (Fatal e) (probed junk image))
               end).
  { rewrite detect_probed by exact H. unfold detect_layout.
    now rewrite H12, H15. }
  split; [ now apply probe_ok | ].
  split; [ | split; [ | split; [ | split ] ] ].
  - intros Hne. rewrite Hd.
    destruct (list_eq_dec _ _ _); [ contradiction | reflexivity ].
  - intros He E1. rewrite Hd.
    destruct (list_eq_dec _ _ _); [ | contradiction ].
    destruct (byte_eq_dec _ x01); [ reflexivity | contradiction ].
  - intros He E2. rewrite Hd.
    destruct (list_eq_dec _ _ _); [ | contradiction ].
    destruct (byte_eq_dec _ x01) as [E1 | _];
      [ rewrite E2 in E1; discriminate E1 | ].
    destruct (byte_eq_dec _ x02); [ reflexivity | contradiction ].
  - intros He N1 N2. rewrite Hd.
    destruct (list_eq_dec _ _ _); [ | contradiction ].
    destruct (byte_eq_dec _ x01); [ contradiction | ].
    destruct (byte_eq_dec _ x02); [ contradiction | reflexivity ].
  - intros junk' image' H' Hsame.
    rewrite (detect_probed junk' image' H'), (detect_probed junk image H), Hsame.
    destruct (detect_layout (firstn 16 image)); [ reflexivity | ].
    split; reflexivity.
Qed.

(** C3.  A probe whose first 12 bytes are the sync header and whose byte 15
    is neither 1 nor 2 ends the program with exit status failure and the
    unsupported-mode message carrying that byte.  The program stops right
    after the probe read: the source is still at offset 16 (no rewind and no
    sector read took place), nothing else is on stderr, and the destination
    is empty. *)
Theorem unsupported_mode_is_fatal
    (junk : nat -> byte) (image old_iso : list byte) :
  (16 <= length image)%nat ->
  firstn 12 image = SYNC_HEADER ->
  nth 15 image x00 <> x01 ->
  nth 15 image x00 <> x02 ->
  run LONG_MAX junk image old_iso =
    Exited EXIT_FAILURE
      (put_line (Fatal (Unsupported_track_mode (nth 15 image x00)))
         (probed junk image))
  /\ lines_of (run LONG_MAX junk image old_iso) =
     [Fatal (Unsupported_track_mode (nth 15 image x00))]
  /\ src_file (final_state (run LONG_MAX junk image old_iso)) = mkFILE image 16
  /\ dst_file (final_state (run LONG_MAX junk image old_iso)) = mkFILE [] 0
  /\ length (iso_of (run LONG_MAX junk image old_iso)) = 0%nat.
Proof.
  intros H Hsync N1 N2.
  assert (Hl : detect_layout (firstn 16 image)
               = inr (Unsupported_track_mode (nth 15 image x00))).
  { unfold detect_layout. rewrite firstn_firstn, nth_firstn. cbn [Nat.min Nat.ltb Nat.leb].
    destruct (list_eq_dec _ _ _); [ | contradiction ].
    destruct (byte_eq_dec _ x01); [ contradiction | ].
    destruct (byte_eq_dec _ x02); [ contradiction | reflexivity ]. }
  rewrite (run_unsupported junk image old_iso _ H Hl).
  repeat split.
Qed.

(** C4.  The number of sectors is [total_len / sector_sz] and the tail is
    [total_len mod sector_sz].  When the tail is not zero the run still exits
    with success; stderr starts with the one size warning, which carries the
    sector size and the tail, and everything after it comes from the sector
    loop and is no size warning; the destination holds the payloads of the
    [total_len / sector_sz] whole sectors and nothing for the tail. *)
Theorem misaligned_tail_is_dropped
    (junk : nat -> byte) (image old_iso : list byte) (l : layout) :
  (16 <= length image)%nat ->
  detect_layout (firstn 16 image) = inl l ->
  Z.of_nat (length image) <= LONG_MAX ->
  Z.of_nat (length image) mod sector_sz l <> 0 ->
  geometry LONG_MAX l (probed junk image) =
    Running (Z.of_nat (length image) / sector_sz l)
      (mkState (mkFILE image 0) (mkFILE [] 0)
         [Warning (Image_size_not_factor (sector_sz l)
                     (Z.of_nat (length image) mod sector_sz l))]
         (buf (probed junk image)))
  /\ exit_code (run LONG_MAX junk image old_iso) = Some EXIT_SUCCESS
  /\ lines_of (run LONG_MAX junk image old_iso) =
     Warning (Image_size_not_factor (sector_sz l)
                (Z.of_nat (length image) mod sector_sz l))
     :: mode_warnings l image 0 (Z.to_nat (Z.of_nat (length image) / sector_sz l))
  /\ filter is_size_warning (lines_of (run LONG_MAX junk image old_iso)) =
     [Warning (Image_size_not_factor (sector_sz l)
                 (Z.of_nat (length image) mod sector_sz l))]
  /\ iso_of (run LONG_MAX junk image old_iso) =
     payloads l image 0 (Z.to_nat (Z.of_nat (length image) / sector_sz l))
  /\ length (iso_of (run LONG_MAX junk image old_iso)) =
     (Z.to_nat (Z.of_nat (length image) / sector_sz l) * 2048)%nat.
Proof.
  intros H Hl Hmax Htail.
  pose proof (detect_layout_known _ _ Hl) as Hk.
  destruct (known_layout_bounds l Hk) as (Hsz & _).
  assert (Hw : size_warning l image =
               [Warning (Image_size_not_factor (sector_sz l)
                           (Z.of_nat (length image) mod sector_sz l))]).
  { unfold size_warning.
    destruct (Z.eqb_spec (Z.of_nat (length image) mod sector_sz l) 0);
      [ contradiction | reflexivity ]. }
  rewrite (sector_count_Z l image Hsz), Nat2Z.id.
  split.
  - rewrite (geometry_ok l (probed junk image) image 16 Hsz eq_refl Hmax).
    cbn [stderr probed app]. now rewrite Hw.
  - destruct (run_ok junk image old_iso l H Hl Hmax) as (b & ->).
    unfold lines_of, iso_of. cbn [exit_code final_state stderr dst_file contents].
    rewrite Hw. cbn [app filter is_size_warning].
    rewrite no_size_warning_in_loop.
    repeat split.
    apply length_payloads; [ exact Hk | apply sector_count_le ].
Qed.

(** C5.  In a 2352-byte layout, a whole sector [i] whose byte 15 differs
    from the mode found at detection gets a warning with the sector index,
    the byte observed and the mode expected.  The run exits with success,
    the mode warnings on stderr are exactly those of the mismatching
    sectors, and the destination is what it is without any mismatch: every
    byte comes from the payload at the header size chosen at detection. *)
Theorem mode_mismatch_is_only_warned
    (junk : nat -> byte) (image old_iso : list byte) (l : layout) (i : nat) :
  (16 <= length image)%nat ->
  detect_layout (firstn 16 image) = inl l ->
  sector_sz l = 2352 ->
  Z.of_nat (length image) <= LONG_MAX ->
  (i < sector_count l image)%nat ->
  nth (i * 2352 + 15) image x00 <> mode l ->
  exit_code (run LONG_MAX junk image old_iso) = Some EXIT_SUCCESS
  /\ In (Warning (Sector_has_different_mode (Z.of_nat i)
                    (nth (i * 2352 + 15) image x00) (mode l)))
        (lines_of (run LONG_MAX junk image old_iso))
  /\ filter is_mode_warning (lines_of (run LONG_MAX junk image old_iso)) =
     mode_warnings l image 0 (sector_count l image)
  /\ length (iso_of (run LONG_MAX junk image old_iso)) =
     (sector_count l image * 2048)%nat
  /\ (forall k : nat,
        (k < sector_count l image * 2048)%nat ->
        nth_error (iso_of (run LONG_MAX junk image old_iso)) k =
        nth_error image (header_size l + 2352 * (k / 2048) + k mod 2048))
  /\ firstn 2048 (skipn (i * 2048) (iso_of (run LONG_MAX junk image old_iso))) =
     firstn 2048 (skipn (i * 2352 + header_size l) image).
Proof.
  intros H Hl Hsz Hmax Hi Hne.
  pose proof (detect_layout_known _ _ Hl) as Hk.
  pose proof (sector_count_le l image) as Hle.
  assert (Hs : sector_size l = 2352%nat) by (unfold sector_size; now rewrite Hsz).
  destruct (run_ok junk image old_iso l H Hl Hmax) as (b & ->).
  unfold lines_of, iso_of. cbn [exit_code final_state stderr dst_file contents].
  split; [ reflexivity | ].
  split.
  { apply in_or_app. right. apply in_mode_warnings. exists i.
    split; [ exact Hi | ]. unfold mode_warning, mismatch.
    rewrite nth_sector by (rewrite Hs; unfold MODE_OFFSET; lia).
    rewrite Hs. change MODE_OFFSET with 15%nat.
    split; [ | reflexivity ].
    apply andb_true_intro. split; apply negb_true_iff.
    - destruct Hk as [-> | [-> | ->]]; [ reflexivity | reflexivity | discriminate Hsz ].
    - destruct (Byte.eqb _ (mode l)) eqn:E; [ | reflexivity ].
      apply byte_dec_bl in E. contradiction. }
  split.
  { rewrite filter_app, no_mode_warning_before_loop, only_mode_warnings_in_loop.
    reflexivity. }
  split; [ apply length_payloads; [ exact Hk | exact Hle ] | ].
  split.
  { intros k Hlt. rewrite <- Hs. apply nth_error_payloads; assumption. }
  rewrite <- Hs, <- payload_plain by (assumption || nia).
  clear Hne. revert Hi Hle. generalize (sector_count l image) as n.
  intros n Hi Hle.
  replace n with (i + (1 + (n - i - 1)))%nat by lia.
  unfold payloads. rewrite !seq_app, !flat_map_app. cbn [seq flat_map Nat.add].
  rewrite app_nil_r.
  change (flat_map _ (seq 0 i)) with (payloads l image 0 i).
  rewrite skipn_app, skipn_all2, (length_payloads l image i Hk 0) by
    (rewrite ?(length_payloads l image i Hk 0) by nia; nia).
  rewrite Nat.sub_diag. cbn [skipn app].
  rewrite firstn_app, length_payload by (assumption || nia).
  rewrite Nat.sub_diag, firstn_O, app_nil_r.
  apply firstn_all2. rewrite length_payload by (assumption || nia). lia.
Qed.

(** C6.  In each of the three layouts, one iteration of the sector loop
    that finds a whole sector to read appends exactly 2048 bytes to the
    destination: the bytes of that sector from the header size on. *)
Theorem every_sector_gives_2048_bytes
    (l : layout) (image out : list byte) (i : nat) (st : state) :
  known_layout l ->
  src_file st = mkFILE image (i * sector_size l) ->
  dst_file st = mkFILE out (length out) ->
  ((i + 1) * sector_size l <= length image)%nat ->
  length (buf st) = 2352%nat ->
  exists (w : list byte) (st' : state),
    copy_sector l (Z.of_nat i) st = Running tt st'
    /\ length w = 2048%nat
    /\ w = firstn 2048 (skipn (i * sector_size l + header_size l) image)
    /\ dst_file st' = mkFILE (out ++ w) (length out + 2048).
Proof.
  intros Hk Hs Hd Hlen Hbuf.
  exists (payload l (sector (sector_size l) image i)).
  eexists. split; [ apply (copy_sector_ok l image out i st); assumption | ].
  split; [ now apply length_payload | ].
  split; [ now apply payload_plain | reflexivity ].
Qed.

(** C7.  Exit status, destination bytes and stderr lines are a function of
    the source bytes: they depend neither on what the destination file held
    before nor on the indeterminate initial bytes of the sector buffer.  In
    particular a second run over the output of a first run gives the same
    destination again. *)
Theorem conversion_is_deterministic
    (junk1 junk2 : nat -> byte) (image old_iso1 old_iso2 : list byte) :
  observable (run LONG_MAX junk1 image old_iso1) =
  observable (run LONG_MAX junk2 image old_iso2)
  /\ iso_of (run LONG_MAX junk2 image
               (iso_of (run LONG_MAX junk1 image old_iso1))) =
     iso_of (run LONG_MAX junk1 image old_iso1).
Proof.
  assert (Hobs : forall j1 j2 o1 o2,
             observable (run LONG_MAX j1 image o1) =
             observable (run LONG_MAX j2 image o2))
    by (intros; now rewrite !run_expected).
  split; [ apply Hobs | ].
  pose proof (Hobs junk2 junk1
                (iso_of (run LONG_MAX junk1 image old_iso1)) old_iso1) as E.
  unfold observable in E. now injection E.
Qed.

(** C8.  When the sector loop has run to its end, the source is positioned
    just after the last whole sector, so that exactly the tail remains
    unread; the destination holds the payloads of the whole sectors and
    nothing else, and is positioned at its end.  The program then closes the
    files and exits with success in that state. *)
Theorem streams_after_the_loop
    (junk : nat -> byte) (image : list byte) (l : layout) :
  (16 <= length image)%nat ->
  detect_layout (firstn 16 image) = inl l ->
  Z.of_nat (length image) <= LONG_MAX ->
  exists st : state,
    convert LONG_MAX (opened junk image) = Running tt st
    /\ src_file st = mkFILE image (sector_count l image * sector_size l)
    /\ (position (src_file st) + length image mod sector_size l)%nat
       = length image
    /\ contents (dst_file st) = payloads l image 0 (sector_count l image)
    /\ length (contents (dst_file st)) = (sector_count l image * 2048)%nat
    /\ position (dst_file st) = (sector_count l image * 2048)%nat
    /\ (forall old_iso : list byte,
          run LONG_MAX junk image old_iso = Exited EXIT_SUCCESS st).
Proof.
  intros H Hl Hmax. pose proof (detect_layout_known _ _ Hl) as Hk.
  destruct (convert_ok junk image l H Hl Hmax) as (b & Hrun).
  eexists. split; [ exact Hrun | ].
  cbn [src_file dst_file contents position].
  split; [ reflexivity | ].
  split.
  { unfold sector_count.
    pose proof (Nat.div_mod_eq (length image) (sector_size l)). lia. }
  split; [ reflexivity | ].
  split; [ apply length_payloads; [ exact Hk | apply sector_count_le ] | ].
  split; [ reflexivity | ].
  intros old_iso. rewrite run_unfold, (bind_Running _ _ _ _ _ Hrun). reflexivity.
Qed.

(** C9.  A source of at least 16 bytes that is shorter than one sector of
    the detected layout converts with success to an empty destination; the
    only line on stderr is the size warning, and it reports the whole length
    as dropped. *)
Theorem image_shorter_than_a_sector
    (junk : nat -> byte) (image old_iso : list byte) (l : layout) :
  (16 <= length image)%nat ->
  detect_layout (firstn 16 image) = inl l ->
  (length image < sector_size l)%nat ->
  exit_code (run LONG_MAX junk image old_iso) = Some EXIT_SUCCESS
  /\ iso_of (run LONG_MAX junk image old_iso) = []
  /\ lines_of (run LONG_MAX junk image old_iso) =
     [Warning (Image_size_not_factor (sector_sz l) (Z.of_nat (length image)))].
Proof.
  intros H Hl Hlt. pose proof (detect_layout_known _ _ Hl) as Hk.
  destruct (known_layout_bounds l Hk) as (Hsz & _ & Hmax & _).
  destruct (run_ok junk image old_iso l H Hl ltac:(lia)) as (b & ->).
  unfold lines_of, iso_of. cbn [exit_code final_state stderr dst_file contents].
  assert (Hn : sector_count l image = 0%nat)
    by (unfold sector_count; now apply Nat.div_small).
  assert (Hm : Z.of_nat (length image) mod sector_sz l = Z.of_nat (length image))
    by (apply Z.mod_small; unfold sector_size in Hlt; lia).
  rewrite Hn. unfold size_warning. rewrite Hm.
  destruct (Z.eqb_spec (Z.of_nat (length image)) 0); [ lia | ].
  repeat split.
Qed.

(** C10.  No run puts a mode warning for sector 0 on stderr, and a run over
    an image without sync header (Mode 2 / 2336) puts no mode warning there
    at all. *)
Theorem no_mode_warning_for_sector_0
    (junk : nat -> byte) (image old_iso : list byte) :
  (forall observed expected : byte,
      ~ In (Warning (Sector_has_different_mode 0 observed expected))
           (lines_of (run LONG_MAX junk image old_iso)))
  /\ (firstn 12 image <> SYNC_HEADER ->
      filter is_mode_warning (lines_of (run LONG_MAX junk image old_iso)) = []).
Proof.
  pose proof (run_expected junk image old_iso) as E.
  unfold observable, expected in E.
  assert (Hfatal : forall e : fatal,
             (forall observed expected : byte,
                 ~ In (Warning (Sector_has_different_mode 0 observed expected))
                      [Fatal e])
             /\ (firstn 12 image <> SYNC_HEADER ->
                 filter is_mode_warning [Fatal e] = []))
    by (intros e; split; [ intros a b' [Hin | []]; discriminate Hin | reflexivity ]).
  destruct (Nat.ltb_spec (length image) 16) as [Hshort | Hlong].
  { injection E as _ _ ->. apply Hfatal. }
  destruct (detect_layout (firstn 16 image)) as [l | e] eqn:Hl.
  2: { injection E as _ _ ->. apply Hfatal. }
  destruct (Z.leb_spec (Z.of_nat (length image)) LONG_MAX) as [Hmax | Hmax].
  2: { injection E as _ _ ->. apply Hfatal. }
  injection E as _ _ ->. split.
  - intros a b' Hin. apply in_app_or in Hin as [Hin | Hin].
    + unfold size_warning in Hin. destruct (_ =? 0); [ destruct Hin | ].
      destruct Hin as [Hin | []]. discriminate Hin.
    + apply in_mode_warnings in Hin as (i & _ & Hm & Hx).
      unfold mode_warning in Hx. injection Hx as Hi _ _.
      assert (i = 0%nat) by lia. subst i.
      rewrite (sector_0_matches image l Hl) in Hm. discriminate Hm.
  - intros Hsync.
    assert (l = Mode2_2336) as ->.
    { revert Hl. unfold detect_layout. rewrite firstn_firstn. cbn [Nat.min].
      destruct (list_eq_dec _ _ _); [ contradiction | now intros [= <-] ]. }
    rewrite filter_app, no_mode_warning_before_loop. cbn [app].
    unfold mode_warnings. unfold mismatch at 1. cbn [mode Mode2_2336].
    induction (seq 0 _) as [ | j js IH]; [ reflexivity | exact IH ].
Qed.

End Correctness.

(** ** The claims on concrete images *)

Example run_mode1_image :
  observable (run LP64_LONG_MAX junk0 mode1_image stale_iso) =
  (Some EXIT_SUCCESS, repeat "A"%byte 2048 ++ repeat "B"%byte 2048, []).
Proof. vm_compute. reflexivity. Qed.

Example run_mode2_image :
  observable (run LP64_LONG_MAX junk0 mode2_image stale_iso) =
  (Some EXIT_SUCCESS, repeat "A"%byte 2048 ++ repeat "B"%byte 2048, []).
Proof. vm_compute. reflexivity. Qed.

Example run_headerless_image :
  observable (run LP64_LONG_MAX junk0 headerless_image stale_iso) =
  (Some EXIT_SUCCESS, repeat "A"%byte 2048 ++ repeat "B"%byte 2048, []).
Proof. vm_compute. reflexivity. Qed.

(** The second sector is cut at the Mode 1 header size although its mode
    byte says 2: its subheader lands in the output. *)
Example run_ragged_image :
  observable (run LP64_LONG_MAX junk0 ragged_image stale_iso) =
  (Some EXIT_SUCCESS,
   repeat "A"%byte 2048 ++ repeat x00 8 ++ repeat "B"%byte 2040,
   [Warning (Image_size_not_factor 2352 2);
    Warning (Sector_has_different_mode 1 x02 x01)]).
Proof. vm_compute. reflexivity. Qed.

(** Other junk in the buffer and another destination file change nothing. *)
Example run_ragged_image_again :
  observable (run LP64_LONG_MAX junk1 ragged_image []) =
  observable (run LP64_LONG_MAX junk0 ragged_image stale_iso).
Proof. vm_compute. reflexivity. Qed.

Example run_stub_image :
  observable (run LP64_LONG_MAX junk0 stub_image stale_iso) =
  (Some EXIT_SUCCESS, [], [Warning (Image_size_not_factor 2352 100)]).
Proof. vm_compute. reflexivity. Qed.

Example run_mode7_image :
  observable (run LP64_LONG_MAX junk0 mode7_image stale_iso) =
  (Some EXIT_FAILURE, [], [Fatal (Unsupported_track_mode x07)]).
Proof. vm_compute. reflexivity. Qed.

Example run_empty_image :
  observable (run LP64_LONG_MAX junk0 [] stale_iso) =
  (Some EXIT_FAILURE, [], [Fatal Read_error]).
Proof. vm_compute. reflexivity. Qed.

(** ** The hypotheses of the claims hold on concrete images *)

Lemma whole_sectors_repacked_witness :
  In (Mode1_2352, 16%nat, 2352%nat) layout_table
  /\ detect_layout (firstn 16 mode1_image) = inl Mode1_2352
  /\ length mode1_image = (2 * 2352)%nat
  /\ length (iso_of (run LP64_LONG_MAX junk0 mode1_image stale_iso))
     = (2 * 2048)%nat
  /\ nth_error (iso_of (run LP64_LONG_MAX junk0 mode1_image stale_iso)) 2049
     = nth_error mode1_image (16 + 2352 * (2049 / 2048) + 2049 mod 2048)
  /\ exit_code (run LP64_LONG_MAX junk0 mode1_image stale_iso)
     = Some EXIT_SUCCESS.
Proof.
  assert (Ht : In (Mode1_2352, 16%nat, 2352%nat) layout_table)
    by (left; reflexivity).
  assert (Hl : detect_layout (firstn 16 mode1_image) = inl Mode1_2352)
    by (vm_compute; reflexivity).
  assert (Hn : length mode1_image = (2 * 2352)%nat)
    by (vm_compute; reflexivity).
  assert (Hm : Z.of_nat (length mode1_image) <= LP64_LONG_MAX)
    by (vm_compute; discriminate).
  destruct (whole_sectors_repacked LP64_LONG_MAX junk0 mode1_image stale_iso
              Mode1_2352 16 2352 2 Ht Hl Hn Hm) as (Hlen & Hk & _ & Hexit).
  split; [ exact Ht | ]. split; [ exact Hl | ]. split; [ exact Hn | ].
  split; [ exact Hlen | ].
  split.
  - apply Hk. apply Nat.ltb_lt. vm_compute. reflexivity.
  - apply Hexit. apply Nat.ltb_lt. reflexivity.
Defined.

Lemma detection_from_probe_witness :
  detect (probed junk0 mode1_image)
  = Running (mkLayout x01 16 2352) (probed junk0 mode1_image)
  /\ detect (probed junk0 mode2_image)
     = Running (mkLayout x02 24 2352) (probed junk0 mode2_image)
  /\ detect (probed junk0 headerless_image)
     = Running (mkLayout x00 8 2336) (probed junk0 headerless_image)
  /\ detect (probed junk0 mode7_image)
     = Exited EXIT_FAILURE
         (put_line (Fatal (Unsupported_track_mode (nth 15 mode7_image x00)))
            (probed junk0 mode7_image)).
Proof.
  assert (H1 : (16 <= length mode1_image)%nat)
    by (apply Nat.leb_le; vm_compute; reflexivity).
  assert (H2 : (16 <= length mode2_image)%nat)
    by (apply Nat.leb_le; vm_compute; reflexivity).
  assert (H3 : (16 <= length headerless_image)%nat)
    by (apply Nat.leb_le; vm_compute; reflexivity).
  assert (H7 : (16 <= length mode7_image)%nat)
    by (apply Nat.leb_le; vm_compute; reflexivity).
  destruct (detection_from_probe junk0 mode1_image H1) as (_ & _ & M1 & _).
  destruct (detection_from_probe junk0 mode2_image H2) as (_ & _ & _ & M2 & _).
  destruct (detection_from_probe junk0 headerless_image H3) as (_ & M0 & _).
  destruct (detection_from_probe junk0 mode7_image H7)
    as (_ & _ & _ & _ & M7 & _).
  split; [ apply M1; vm_compute; reflexivity | ].
  split; [ apply M2; vm_compute; reflexivity | ].
  split; [ apply M0; vm_compute; discriminate | ].
  apply M7; vm_compute; (reflexivity || discriminate).
Defined.

Lemma unsupported_mode_is_fatal_witness :
  firstn 12 mode7_image = SYNC_HEADER
  /\ nth 15 mode7_image x00 = x07
  /\ lines_of (run LP64_LONG_MAX junk0 mode7_image stale_iso)
     = [Fatal (Unsupported_track_mode (nth 15 mode7_image x00))]
  /\ dst_file (final_state (run LP64_LONG_MAX junk0 mode7_image stale_iso))
     = mkFILE [] 0.
Proof.
  assert (H : (16 <= length mode7_image)%nat)
    by (apply Nat.leb_le; vm_compute; reflexivity).
  assert (Hs : firstn 12 mode7_image = SYNC_HEADER) by (vm_compute; reflexivity).
  assert (N1 : nth 15 mode7_image x00 <> x01) by (vm_compute; discriminate).
  assert (N2 : nth 15 mode7_image x00 <> x02) by (vm_compute; discriminate).
  destruct (unsupported_mode_is_fatal LP64_LONG_MAX junk0 mode7_image stale_iso
              H Hs N1 N2) as (_ & He & _ & Hd & _).
  split; [ exact Hs | ]. split; [ vm_compute; reflexivity | ].
  split; [ exact He | exact Hd ].
Defined.


Lemma misaligned_tail_is_dropped_witness :
  Z.of_nat (length ragged_image) mod sector_sz Mode1_2352 = 2
  /\ exit_code (run LP64_LONG_MAX junk0 ragged_image stale_iso)
     = Some EXIT_SUCCESS
  /\ filter is_size_warning
       (lines_of (run LP64_LONG_MAX junk0 ragged_image stale_iso))
     = [Warning (Image_size_not_factor (sector_sz Mode1_2352)
                   (Z.of_nat (length ragged_image) mod sector_sz Mode1_2352))]
  /\ length (iso_of (run LP64_LONG_MAX junk0 ragged_image stale_iso))
     = (Z.to_nat (Z.of_nat (length ragged_image) / sector_sz Mode1_2352)
        * 2048)%nat.
Proof.
  assert (H : (16 <= length ragged_image)%nat)
    by (apply Nat.leb_le; vm_compute; reflexivity).
  assert (Hl : detect_layout (firstn 16 ragged_image) = inl Mode1_2352)
    by (vm_compute; reflexivity).
  assert (Hm : Z.of_nat (length ragged_image) <= LP64_LONG_MAX)
    by (vm_compute; discriminate).
  assert (Ht : Z.of_nat (length ragged_image) mod sector_sz Mode1_2352 <> 0)
    by (vm_compute; discriminate).
  destruct (misaligned_tail_is_dropped LP64_LONG_MAX junk0 ragged_image
              stale_iso Mode1_2352 H Hl Hm Ht)
    as (_ & Hexit & _ & Hone & _ & Hlen).
  split; [ vm_compute; reflexivity | ].
  split; [ exact Hexit | ]. split; [ exact Hone | exact Hlen ].
Defined.

Lemma mode_mismatch_is_only_warned_witness :
  nth (1 * 2352 + 15) ragged_image x00 = x02
  /\ mode Mode1_2352 = x01
  /\ exit_code (run LP64_LONG_MAX junk0 ragged_image stale_iso)
     = Some EXIT_SUCCESS
  /\ In (Warning (Sector_has_different_mode (Z.of_nat 1)
                    (nth (1 * 2352 + 15) ragged_image x00) (mode Mode1_2352)))
        (lines_of (run LP64_LONG_MAX junk0 ragged_image stale_iso))
  /\ firstn 2048
       (skipn (1 * 2048) (iso_of (run LP64_LONG_MAX junk0 ragged_image stale_iso)))
     = firstn 2048 (skipn (1 * 2352 + header_size Mode1_2352) ragged_image).
Proof.
  assert (H : (16 <= length ragged_image)%nat)
    by (apply Nat.leb_le; vm_compute; reflexivity).
  assert (Hl : detect_layout (firstn 16 ragged_image) = inl Mode1_2352)
    by (vm_compute; reflexivity).
  assert (Hs : sector_sz Mode1_2352 = 2352) by reflexivity.
  assert (Hm : Z.of_nat (length ragged_image) <= LP64_LONG_MAX)
    by (vm_compute; discriminate).
  assert (Hi : (1 < sector_count Mode1_2352 ragged_image)%nat)
    by (apply Nat.ltb_lt; vm_compute; reflexivity).
  assert (Hne : nth (1 * 2352 + 15) ragged_image x00 <> mode Mode1_2352)
    by (vm_compute; discriminate).
  destruct (mode_mismatch_is_only_warned LP64_LONG_MAX junk0 ragged_image
              stale_iso Mode1_2352 1 H Hl Hs Hm Hi Hne)
    as (Hexit & Hin & _ & _ & _ & Hcut).
  split; [ vm_compute; reflexivity | ]. split; [ reflexivity | ].
  split; [ exact Hexit | ]. split; [ exact Hin | exact Hcut ].
Defined.

Lemma every_sector_gives_2048_bytes_witness :
  exists (w : list byte) (st' : state),
    copy_sector Mode2_2352 (Z.of_nat 1)
      (mkState (mkFILE mode2_image (1 * sector_size Mode2_2352))
         (mkFILE (repeat "A"%byte 2048) (length (repeat "A"%byte 2048))) []
         (map junk0 (seq 0 2352)))
    = Running tt st'
    /\ length w = 2048%nat
    /\ w = firstn 2048
             (skipn (1 * sector_size Mode2_2352 + header_size Mode2_2352)
                mode2_image)
    /\ dst_file st'
       = mkFILE (repeat "A"%byte 2048 ++ w)
                (length (repeat "A"%byte 2048) + 2048).
Proof.
  apply (every_sector_gives_2048_bytes Mode2_2352 mode2_image
           (repeat "A"%byte 2048) 1).
  - right. left. reflexivity.
  - reflexivity.
  - reflexivity.
  - apply Nat.leb_le. vm_compute. reflexivity.
  - vm_compute. reflexivity.
Defined.

Lemma streams_after_the_loop_witness :
  exists st : state,
    convert LP64_LONG_MAX (opened junk0 ragged_image) = Running tt st
    /\ src_file st
       = mkFILE ragged_image
           (sector_count Mode1_2352 ragged_image * sector_size Mode1_2352)
    /\ (position (src_file st)
        + length ragged_image mod sector_size Mode1_2352)%nat
       = length ragged_image
    /\ contents (dst_file st)
       = payloads Mode1_2352 ragged_image 0 (sector_count Mode1_2352 ragged_image)
    /\ length (contents (dst_file st))
       = (sector_count Mode1_2352 ragged_image * 2048)%nat
    /\ position (dst_file st)
       = (sector_count Mode1_2352 ragged_image * 2048)%nat
    /\ (forall old_iso : list byte,
          run LP64_LONG_MAX junk0 ragged_image old_iso = Exited EXIT_SUCCESS st).
Proof.
  apply (streams_after_the_loop LP64_LONG_MAX junk0 ragged_image Mode1_2352).
  - apply Nat.leb_le. vm_compute. reflexivity.
  - vm_compute. reflexivity.
  - vm_compute. discriminate.
Defined.

Lemma image_shorter_than_a_sector_witness :
  length stub_image = 100%nat
  /\ exit_code (run LP64_LONG_MAX junk0 stub_image stale_iso) = Some EXIT_SUCCESS
  /\ iso_of (run LP64_LONG_MAX junk0 stub_image stale_iso) = []
  /\ lines_of (run LP64_LONG_MAX junk0 stub_image stale_iso)
     = [Warning (Image_size_not_factor (sector_sz Mode1_2352)
                   (Z.of_nat (length stub_image)))].
Proof.
  split; [ vm_compute; reflexivity | ].
  apply (image_shorter_than_a_sector LP64_LONG_MAX).
  - vm_compute. discriminate.
  - apply Nat.leb_le. vm_compute. reflexivity.
  - vm_compute. reflexivity.
  - apply Nat.ltb_lt. vm_compute. reflexivity.
Defined.

Lemma no_mode_warning_for_sector_0_witness :
  firstn 12 headerless_image <> SYNC_HEADER
  /\ filter is_mode_warning
       (lines_of (run LP64_LONG_MAX junk0 headerless_image stale_iso)) = []
  /\ ~ In (Warning (Sector_has_different_mode 0 x02 x01))
          (lines_of (run LP64_LONG_MAX junk0 ragged_image stale_iso)).
Proof.
  assert (Hs : firstn 12 headerless_image <> SYNC_HEADER)
    by (vm_compute; discriminate).
  destruct (no_mode_warning_for_sector_0 LP64_LONG_MAX junk0 headerless_image
              stale_iso) as (_ & Hnone).
  destruct (no_mode_warning_for_sector_0 LP64_LONG_MAX junk0 ragged_image
              stale_iso) as (Hzero & _).
  split; [ exact Hs | ]. split; [ exact (Hnone Hs) | exact (Hzero x02 x01) ].
Defined.

(** ** Images put together from sectors *)

Lemma flat_map_seq_shift {B : Type} (f g : nat -> list B) (n : nat) :
  forall lo lo' : nat,
    (forall j : nat, (j < n)%nat -> f (lo + j)%nat = g (lo' + j)%nat) ->
    flat_map f (seq lo n) = flat_map g (seq lo' n).
Proof.
  induction n as [ | n IH]; intros lo lo' H; [ reflexivity | ].
  cbn [seq flat_map]. f_equal.
  - specialize (H 0%nat ltac:(lia)). now rewrite !Nat.add_0_r in H.
  - apply IH. intros j Hj. specialize (H (S j) ltac:(lia)).
    now rewrite <- !Nat.add_succ_comm in H.
Qed.

Lemma sector_app_l (sz : nat) (a b : list byte) (i : nat) :
  ((i + 1) * sz <= length a)%nat ->
  sector sz (a ++ b) i = sector sz a i.
Proof.
  intros H. unfold sector. rewrite skipn_app, firstn_app, length_skipn.
  replace (sz - (length a - i * sz))%nat with 0%nat by lia.
  now rewrite firstn_O, app_nil_r.
Qed.

Lemma sector_app_r (sz : nat) (a b : list byte) (n j : nat) :
  length a = (n * sz)%nat ->
  sector sz (a ++ b) (n + j) = sector sz b j.
Proof.
  intros H. unfold sector. rewrite skipn_app.
  rewrite skipn_all2 by nia. cbn [app].
  now replace ((n + j) * sz - length a)%nat with (j * sz)%nat by nia.
Qed.

Lemma payloads_app (l : layout) (a b : list byte) (n m : nat) :
  length a = (n * sector_size l)%nat ->
  payloads l (a ++ b) 0 (n + m) = payloads l a 0 n ++ payloads l b 0 m.
Proof.
  intros H. unfold payloads. rewrite seq_app, flat_map_app. cbn [Nat.add].
  f_equal.
  - apply flat_map_seq_shift. intros j Hj. cbn [Nat.add].
    rewrite sector_app_l by nia. reflexivity.
  - apply flat_map_seq_shift. intros j Hj. cbn [Nat.add].
    now rewrite (sector_app_r _ a b n j H).
Qed.

Lemma sector_whole (sz : nat) (a : list byte) :
  length a = sz -> sector sz a 0 = a.
Proof.
  intros H. unfold sector. cbn [Nat.mul skipn]. rewrite <- H. apply firstn_all.
Qed.

Lemma sector_concat (sz : nat) (blocks : list (list byte)) :
  Forall (fun b => length b = sz) blocks ->
  forall i : nat,
    (i < length blocks)%nat ->
    sector sz (concat blocks) i = nth i blocks [].
Proof.
  induction 1 as [ | b bs Hb _ IH]; intros i Hi; [ cbn in Hi; lia | ].
  cbn [concat]. destruct i as [ | i].
  - rewrite sector_app_l by (rewrite Hb; lia). now apply sector_whole.
  - change (S i) with (1 + i)%nat.
    rewrite (sector_app_r sz b (concat bs) 1 i) by lia.
    apply IH. cbn [length] in Hi. lia.
Qed.

Lemma length_concat_blocks (sz : nat) (blocks : list (list byte)) :
  Forall (fun b => length b = sz) blocks ->
  length (concat blocks) = (length blocks * sz)%nat.
Proof.
  induction 1 as [ | b bs Hb _ IH]; [ reflexivity | ].
  cbn [concat length]. rewrite length_app, IH, Hb. lia.
Qed.

Lemma payloads_concat (l : layout) (blocks : list (list byte)) :
  Forall (fun b => length b = sector_size l) blocks ->
  payloads l (concat blocks) 0 (length blocks) =
  concat (map (payload l) blocks).
Proof.
  induction 1 as [ | b bs Hb Hbs IH]; [ reflexivity | ].
  cbn [concat length map]. change (S (length bs)) with (1 + length bs)%nat.
  rewrite (payloads_app l b (concat bs) 1 (length bs)) by lia.
  rewrite IH. f_equal. unfold payloads. cbn [seq flat_map].
  now rewrite app_nil_r, sector_whole.
Qed.

Lemma payload_join (l : layout) (hdr data trailer : list byte) :
  length hdr = header_size l ->
  length data = 2048%nat ->
  payload l (join (hdr, data, trailer)) = data.
Proof.
  intros Hh Hd. unfold payload, join.
  rewrite skipn_app, skipn_all2, Hh, Nat.sub_diag by lia. cbn [app skipn].
  rewrite firstn_app, Hd, Nat.sub_diag, firstn_O, app_nil_r.
  rewrite <- Hd. apply firstn_all.
Qed.

Lemma mode_warnings_nil (l : layout) (image : list byte) (n : nat) :
  (forall i : nat, (i < n)%nat ->
     mismatch l (sector (sector_size l) image i) = false) ->
  mode_warnings l image 0 n = [].
Proof.
  intros H. destruct (mode_warnings l image 0 n) as [ | x xs] eqn:E;
    [ reflexivity | ].
  assert (Hin : In x (mode_warnings l image 0 n)) by (rewrite E; now left).
  apply in_mode_warnings in Hin as (i & Hi & Hm & _).
  rewrite (H i Hi) in Hm. discriminate Hm.
Qed.

Lemma size_warning_nil (l : layout) (image : list byte) (n : nat) :
  0 < sector_sz l ->
  length image = (n * sector_size l)%nat ->
  size_warning l image = [].
Proof.
  intros Hsz Hlen. unfold size_warning. rewrite Hlen. unfold sector_size.
  rewrite Nat2Z.inj_mul, Z2Nat.id, Z.mod_mul by lia. reflexivity.
Qed.

Lemma detect_layout_no_sync (probe : list byte) :
  firstn 12 probe <> SYNC_HEADER -> detect_layout probe = inl Mode2_2336.
Proof.
  intros H. unfold detect_layout.
  destruct (list_eq_dec _ _ _); [ contradiction | reflexivity ].
Qed.

Lemma detect_layout_mode1 (probe : list byte) :
  firstn 12 probe = SYNC_HEADER -> nth 15 probe x00 = x01 ->
  detect_layout probe = inl Mode1_2352.
Proof.
  intros H M. unfold detect_layout.
  destruct (list_eq_dec _ _ _); [ | contradiction ].
  destruct (byte_eq_dec _ x01); [ reflexivity | contradiction ].
Qed.

Lemma detect_layout_mode2 (probe : list byte) :
  firstn 12 probe = SYNC_HEADER -> nth 15 probe x00 = x02 ->
  detect_layout probe = inl Mode2_2352.
Proof.
  intros H M. unfold detect_layout.
  destruct (list_eq_dec _ _ _); [ | contradiction ].
  destruct (byte_eq_dec _ x01) as [E | _]; [ rewrite M in E; discriminate E | ].
  destruct (byte_eq_dec _ x02); [ reflexivity | contradiction ].
Qed.

Lemma detect_layout_app (a b : list byte) :
  (16 <= length a)%nat ->
  detect_layout (firstn 16 (a ++ b)) = detect_layout (firstn 16 a).
Proof.
  intros H. rewrite firstn_app.
  replace (16 - length a)%nat with 0%nat by lia.
  now rewrite firstn_O, app_nil_r.
Qed.

(** ** The sectors named by the warnings *)

Lemma warned_sectors_app (xs ys : list line) :
  warned_sectors (xs ++ ys) = warned_sectors xs ++ warned_sectors ys.
Proof. apply flat_map_app. Qed.

Lemma warned_sectors_size_warning (l : layout) (image : list byte) :
  warned_sectors (size_warning l image) = [].
Proof. unfold size_warning. now destruct (_ =? 0). Qed.

Lemma warned_sectors_mode_warnings (l : layout) (image : list byte) (lo n : nat) :
  warned_sectors (mode_warnings l image lo n) =
  map Z.of_nat
      (filter (fun i => mismatch l (sector (sector_size l) image i)) (seq lo n)).
Proof.
  unfold mode_warnings.
  induction (filter _ (seq lo n)) as [ | j js IH]; [ reflexivity | ].
  cbn [map warned_sectors flat_map mode_warning app]. f_equal. exact IH.
Qed.

Lemma filtered_seq_sorted (p : nat -> bool) (n : nat) :
  forall lo : nat,
    StronglySorted Z.lt (map Z.of_nat (filter p (seq lo n))).
Proof.
  induction n as [ | n IH]; intros lo; [ constructor | ].
  cbn [seq filter]. destruct (p lo); [ | apply IH ].
  cbn [map]. constructor; [ apply IH | ].
  apply Forall_forall. intros z Hz.
  apply in_map_iff in Hz as (j & <- & Hj).
  apply filter_In in Hj as [Hj _]. apply in_seq in Hj. lia.
Qed.

(** ** More on the run as a whole *)

Section Run.

Variable LONG_MAX : Z.

(** X1.  A run exits with success exactly when the source has the 16 bytes of
    the probe, its first 12 bytes are not the sync header or byte 15 is 1 or
    2, and its length fits a [long]. *)
Theorem run_succeeds_iff (junk : nat -> byte) (image old_iso : list byte) :
  exit_code (run LONG_MAX junk image old_iso) = Some EXIT_SUCCESS
  <->
  (16 <= length image)%nat
  /\ (firstn 12 image <> SYNC_HEADER
      \/ nth 15 image x00 = x01 \/ nth 15 image x00 = x02)
  /\ Z.of_nat (length image) <= LONG_MAX.
Proof.
  pose proof (run_expected LONG_MAX junk image old_iso) as E.
  unfold observable, expected in E.
  assert (H12 : firstn 12 (firstn 16 image) = firstn 12 image)
    by (rewrite firstn_firstn; reflexivity).
  assert (H15 : nth 15 (firstn 16 image) x00 = nth 15 image x00)
    by (rewrite nth_firstn; reflexivity).
  unfold detect_layout in E. rewrite H12, H15 in E.
  destruct (Nat.ltb_spec (length image) 16) as [Hshort | Hlong].
  { injection E as -> _ _. split; [ discriminate | lia ]. }
  destruct (list_eq_dec byte_eq_dec (firstn 12 image) SYNC_HEADER) as [Hs | Hs];
    [ destruct (byte_eq_dec (nth 15 image x00) x01) as [M1 | M1];
      [ | destruct (byte_eq_dec (nth 15 image x00) x02) as [M2 | M2] ] | ].
  4: destruct (Z.leb_spec (Z.of_nat (length image)) LONG_MAX) as [Hm | Hm].
  2: destruct (Z.leb_spec (Z.of_nat (length image)) LONG_MAX) as [Hm | Hm].
  1: destruct (Z.leb_spec (Z.of_nat (length image)) LONG_MAX) as [Hm | Hm].
  all: injection E as -> _ _.
  all: split; [ try discriminate; intros _ | try (intros (_ & _ & Hle); lia) ].
  all: try (split; [ exact Hlong | split; [ auto | exact Hm ] ]).
  all: try reflexivity.
  intros (_ & [Hc | [Hc | Hc]] & _); contradiction.
Qed.

(** X2.  On a device that takes every read and write, a run can only fail
    before the sector loop: a run that fails leaves the destination empty,
    whatever it held before, and exactly one line on stderr, the fatal one.
    A run that succeeds leaves no fatal line. *)
Theorem failure_leaves_empty_destination
    (junk : nat -> byte) (image old_iso : list byte) :
  (exit_code (run LONG_MAX junk image old_iso) = Some EXIT_FAILURE
   /\ iso_of (run LONG_MAX junk image old_iso) = []
   /\ exists e : fatal, lines_of (run LONG_MAX junk image old_iso) = [Fatal e])
  \/
  (exit_code (run LONG_MAX junk image old_iso) = Some EXIT_SUCCESS
   /\ filter is_fatal (lines_of (run LONG_MAX junk image old_iso)) = []).
Proof.
  pose proof (run_expected LONG_MAX junk image old_iso) as E.
  unfold observable, expected in E.
  destruct (Nat.ltb_spec (length image) 16) as [Hshort | Hlong].
  { injection E as -> -> ->. left. eauto. }
  destruct (detect_layout (firstn 16 image)) as [l | e].
  2: { injection E as -> -> ->. left. eauto. }
  destruct (Z.leb_spec (Z.of_nat (length image)) LONG_MAX) as [Hm | Hm].
  2: { injection E as -> -> ->. left. eauto. }
  injection E as -> _ ->. right. split; [ reflexivity | ].
  rewrite filter_app. unfold size_warning, mode_warnings.
  destruct (_ =? 0); cbn [filter is_fatal app];
    induction (filter _ (seq 0 _)) as [ | j js IH]; try reflexivity; exact IH.
Qed.

(** X3.  A source of fewer than 16 bytes, the empty file included, ends the
    program with the read error; the destination has been truncated and
    stays empty. *)
Theorem short_source_is_a_read_error
    (junk : nat -> byte) (image old_iso : list byte) :
  (length image < 16)%nat ->
  observable (run LONG_MAX junk image old_iso) =
  (Some EXIT_FAILURE, [], [Fatal Read_error]).
Proof.
  intros H. rewrite run_expected. unfold expected.
  destruct (Nat.ltb_spec (length image) 16); [ reflexivity | lia ].
Qed.

(** X4.  A source whose length does not fit a [long] ends the program with the
    file-size message once its layout is detected: no sector is converted
    and the destination stays empty. *)
Theorem oversized_source_is_fatal
    (junk : nat -> byte) (image old_iso : list byte) (l : layout) :
  (16 <= length image)%nat ->
  detect_layout (firstn 16 image) = inl l ->
  LONG_MAX < Z.of_nat (length image) ->
  observable (run LONG_MAX junk image old_iso) =
  (Some EXIT_FAILURE, [], [Fatal Cannot_determine_source_file_size]).
Proof.
  intros H Hl Hm. rewrite run_expected. unfold expected. rewrite Hl.
  destruct (Nat.ltb_spec (length image) 16); [ lia | ].
  destruct (Z.leb_spec (Z.of_nat (length image)) LONG_MAX); [ lia | reflexivity ].
Qed.

(** X5.  The destination of any run is a whole number of 2048-byte blocks, and
    it holds at most 2048 bytes for every 2336 bytes of the source. *)
Theorem destination_size_bounds
    (junk : nat -> byte) (image old_iso : list byte) :
  (length (iso_of (run LONG_MAX junk image old_iso)) mod 2048 = 0)%nat
  /\ (2336 * length (iso_of (run LONG_MAX junk image old_iso))
      <= 2048 * length image)%nat.
Proof.
  pose proof (run_expected LONG_MAX junk image old_iso) as E.
  unfold observable, expected in E.
  destruct (Nat.ltb_spec (length image) 16) as [Hshort | Hlong].
  { injection E as _ -> _. cbn [length]. split; [ reflexivity | lia ]. }
  destruct (detect_layout (firstn 16 image)) as [l | e] eqn:Hl.
  2: { injection E as _ -> _. cbn [length]. split; [ reflexivity | lia ]. }
  destruct (Z.leb_spec (Z.of_nat (length image)) LONG_MAX) as [Hm | Hm].
  2: { injection E as _ -> _. cbn [length]. split; [ reflexivity | lia ]. }
  injection E as _ -> _.
  pose proof (detect_layout_known _ _ Hl) as Hk.
  pose proof (sector_count_le l image) as Hle.
  rewrite (length_payloads l image _ Hk 0 Hle).
  split; [ apply Nat.Div0.mod_mul | ].
  assert (Hsz : (2336 <= sector_size l)%nat)
    by (destruct Hk as [-> | [-> | ->]]; unfold sector_size;
        cbn [sector_sz Mode1_2352 Mode2_2352 Mode2_2336]; lia).
  nia.
Qed.

Lemma iso_payloads (junk : nat -> byte) (image old_iso : list byte) (l : layout) :
  detect_layout (firstn 16 image) = inl l ->
  Z.of_nat (length image) <= LONG_MAX ->
  iso_of (run LONG_MAX junk image old_iso) =
  payloads l image 0 (sector_count l image).
Proof.
  intros Hl Hm. pose proof (run_expected LONG_MAX junk image old_iso) as E.
  unfold observable, expected in E. rewrite Hl in E.
  destruct (known_layout_bounds l (detect_layout_known _ _ Hl)) as (_ & Hh & _).
  destruct (Nat.ltb_spec (length image) 16) as [Hshort | Hlong].
  - injection E as _ -> _.
    assert (Hn : sector_count l image = 0%nat)
      by (unfold sector_count; apply Nat.div_small; lia).
    now rewrite Hn.
  - destruct (Z.leb_spec (Z.of_nat (length image)) LONG_MAX); [ | lia ].
    now injection E as _ -> _.
Qed.

(** X6.  Putting a second image of the same layout behind an image of whole
    sectors puts its conversion behind the conversion of the first. *)
Theorem conversion_of_joined_images
    (junk : nat -> byte) (a b old_iso : list byte) (l : layout) (n : nat) :
  detect_layout (firstn 16 a) = inl l ->
  detect_layout (firstn 16 b) = inl l ->
  length a = (n * sector_size l)%nat ->
  (0 < n)%nat ->
  Z.of_nat (length (a ++ b)) <= LONG_MAX ->
  iso_of (run LONG_MAX junk (a ++ b) old_iso) =
  iso_of (run LONG_MAX junk a old_iso) ++ iso_of (run LONG_MAX junk b old_iso).
Proof.
  intros Ha Hb Hlen Hn Hm.
  destruct (known_layout_bounds l (detect_layout_known _ _ Ha)) as (_ & Hh & _).
  rewrite length_app in Hm.
  assert (Hab : detect_layout (firstn 16 (a ++ b)) = inl l)
    by (rewrite detect_layout_app by nia; exact Ha).
  rewrite (iso_payloads junk (a ++ b) old_iso l Hab)
    by (rewrite length_app; exact Hm).
  rewrite (iso_payloads junk a old_iso l Ha), (iso_payloads junk b old_iso l Hb)
    by lia.
  assert (Hca : sector_count l a = n)
    by (unfold sector_count; rewrite Hlen; apply Nat.div_mul; lia).
  assert (Hcab : sector_count l (a ++ b) = (n + sector_count l b)%nat)
    by (unfold sector_count; rewrite length_app, Hlen;
        apply Nat.div_add_l; lia).
  rewrite Hca, Hcab. now apply payloads_app.
Qed.

Lemma joined_sectors_run
    (junk : nat -> byte) (old_iso : list byte) (l : layout)
    (ps : list (list byte * list byte * list byte)) :
  ps <> [] ->
  Forall (fun p => let '(hdr, data, trailer) := p in
                   length hdr = header_size l
                   /\ length data = 2048%nat
                   /\ length (join p) = sector_size l
                   /\ (mode l = x00 \/ nth MODE_OFFSET hdr x00 = mode l)) ps ->
  detect_layout (firstn 16 (concat (map join ps))) = inl l ->
  Z.of_nat (length (concat (map join ps))) <= LONG_MAX ->
  observable (run LONG_MAX junk (concat (map join ps)) old_iso) =
  (Some EXIT_SUCCESS, concat (map data_of ps), []).
Proof.
  intros Hne Hps Hl Hm.
  pose proof (detect_layout_known _ _ Hl) as Hk.
  destruct (known_layout_bounds l Hk) as (Hsz & Hh & _ & Hmo).
  assert (Hblocks : Forall (fun b => length b = sector_size l) (map join ps)).
  { apply Forall_map. eapply Forall_impl; [ | exact Hps ].
    intros [[hdr data] trailer] (_ & _ & H & _). exact H. }
  pose proof (length_concat_blocks _ _ Hblocks) as Hlen.
  rewrite length_map in Hlen.
  rewrite run_expected. unfold expected. rewrite Hl.
  destruct (Nat.ltb_spec (length (concat (map join ps))) 16) as [Hshort | _].
  { destruct ps as [ | p ps']; [ contradiction | ]. cbn [length] in Hlen. nia. }
  destruct (Z.leb_spec (Z.of_nat (length (concat (map join ps)))) LONG_MAX);
    [ | lia ].
  rewrite (sector_count_whole l _ (length ps) Hk Hlen).
  rewrite (size_warning_nil l _ (length ps) Hsz Hlen). cbn [app].
  f_equal; [ f_equal | ].
  - rewrite <- (length_map join ps), (payloads_concat l _ Hblocks), map_map.
    f_equal. apply map_ext_in. intros [[hdr data] trailer] Hin.
    rewrite Forall_forall in Hps. specialize (Hps _ Hin). cbn in Hps.
    destruct Hps as (H1 & H2 & _). now apply payload_join.
  - apply mode_warnings_nil. intros i Hi.
    rewrite sector_concat by (rewrite ?length_map; assumption).
    assert (Hin : In (nth i (map join ps) []) (map join ps))
      by (apply nth_In; now rewrite length_map).
    apply in_map_iff in Hin as ([[hdr data] trailer] & <- & Hin).
    rewrite Forall_forall in Hps. specialize (Hps _ Hin). cbn in Hps.
    destruct Hps as (H1 & _ & _ & H4). unfold mismatch.
    destruct Hk as [-> | [-> | ->]].
    + destruct H4 as [H4 | H4]; [ discriminate H4 | ].
      unfold join. rewrite app_nth1
        by (rewrite H1; unfold MODE_OFFSET, header_size;
            cbn [hdr_sz Mode1_2352 Mode2_2352]; lia).
      rewrite H4. reflexivity.
    + destruct H4 as [H4 | H4]; [ discriminate H4 | ].
      unfold join. rewrite app_nth1
        by (rewrite H1; unfold MODE_OFFSET, header_size;
            cbn [hdr_sz Mode1_2352 Mode2_2352]; lia).
      rewrite H4. reflexivity.
    + reflexivity.
Qed.

(** X7.  Mode 1 sectors laid out as the head of the source lists them -- sync,
    address, mode 1, data, ECC -- convert to their data fields, one after
    the other, without any warning, whatever the address and ECC bytes. *)
Theorem mode1_sectors_give_their_data
    (junk : nat -> byte) (old_iso : list byte) (ss : list fields) :
  ss <> [] ->
  Forall fields_mode1 ss ->
  Z.of_nat (length ss) * 2352 <= LONG_MAX ->
  observable (run LONG_MAX junk (concat (map frame_mode1 ss)) old_iso) =
  (Some EXIT_SUCCESS, concat (map f_data ss), []).
Proof.
  intros Hne Hss Hm.
  set (parts := fun s : fields =>
                  (SYNC_HEADER ++ f_address s ++ [x01], f_data s, f_ecc s)).
  assert (Hj : map frame_mode1 ss = map join (map parts ss)).
  { rewrite map_map. apply map_ext. intros s. unfold frame_mode1, parts, join.
    now rewrite <- !app_assoc. }
  assert (Hd : map f_data ss = map data_of (map parts ss))
    by (rewrite map_map; reflexivity).
  assert (Hps : Forall (fun p => let '(hdr, data, trailer) := p in
                   length hdr = header_size Mode1_2352
                   /\ length data = 2048%nat
                   /\ length (join p) = sector_size Mode1_2352
                   /\ (mode Mode1_2352 = x00
                       \/ nth MODE_OFFSET hdr x00 = mode Mode1_2352))
                (map parts ss)).
  { apply Forall_map. eapply Forall_impl; [ | exact Hss ].
    intros [addr sub data ecc] (Ha & Hda & He). cbn in Ha, Hda, He.
    unfold parts, join. cbn [f_address f_data f_ecc].
    destruct addr as [ | a [ | b [ | c [ | ? ?]]]]; try discriminate Ha.
    rewrite !length_app, Hda, He.
    split; [ reflexivity | ]. split; [ reflexivity | ].
    split; [ reflexivity | right; reflexivity ]. }
  rewrite Hj, Hd. apply (joined_sectors_run junk old_iso Mode1_2352).
  - destruct ss; [ contradiction | discriminate ].
  - exact Hps.
  - rewrite <- Hj. destruct ss as [ | [addr sub data ecc] rest];
      [ contradiction | ].
    apply Forall_inv in Hss. destruct Hss as (Ha & _). cbn in Ha.
    destruct addr as [ | a [ | b [ | c [ | ? ?]]]]; try discriminate Ha.
    apply detect_layout_mode1; reflexivity.
  - rewrite (length_concat_blocks (sector_size Mode1_2352)).
    + rewrite !length_map, Nat2Z.inj_mul.
      unfold sector_size. cbn [sector_sz Mode1_2352]. lia.
    + apply Forall_map. eapply Forall_impl; [ | exact Hps ].
      intros [[hdr data] trailer] (_ & _ & H & _). exact H.
Qed.

(** X8.  Mode 2 sectors with sync header, laid out as the head of the source
    lists them -- sync, address, mode 2, subheader, data, ECC -- convert to
    their data fields, without any warning. *)
Theorem mode2_sectors_give_their_data
    (junk : nat -> byte) (old_iso : list byte) (ss : list fields) :
  ss <> [] ->
  Forall fields_mode2 ss ->
  Z.of_nat (length ss) * 2352 <= LONG_MAX ->
  observable (run LONG_MAX junk (concat (map frame_mode2 ss)) old_iso) =
  (Some EXIT_SUCCESS, concat (map f_data ss), []).
Proof.
  intros Hne Hss Hm.
  set (parts := fun s : fields =>
                  (SYNC_HEADER ++ f_address s ++ [x02] ++ f_subheader s,
                   f_data s, f_ecc s)).
  assert (Hj : map frame_mode2 ss = map join (map parts ss)).
  { rewrite map_map. apply map_ext. intros s. unfold frame_mode2, parts, join.
    now rewrite <- !app_assoc. }
  assert (Hd : map f_data ss = map data_of (map parts ss))
    by (rewrite map_map; reflexivity).
  assert (Hps : Forall (fun p => let '(hdr, data, trailer) := p in
                   length hdr = header_size Mode2_2352
                   /\ length data = 2048%nat
                   /\ length (join p) = sector_size Mode2_2352
                   /\ (mode Mode2_2352 = x00
                       \/ nth MODE_OFFSET hdr x00 = mode Mode2_2352))
                (map parts ss)).
  { apply Forall_map. eapply Forall_impl; [ | exact Hss ].
    intros [addr sub data ecc] (Ha & Hsu & Hda & He). cbn in Ha, Hsu, Hda, He.
    unfold parts, join. cbn [f_address f_subheader f_data f_ecc].
    destruct addr as [ | a [ | b [ | c [ | ? ?]]]]; try discriminate Ha.
    rewrite !length_app, Hsu, Hda, He.
    split; [ reflexivity | ]. split; [ reflexivity | ].
    split; [ reflexivity | right; reflexivity ]. }
  rewrite Hj, Hd. apply (joined_sectors_run junk old_iso Mode2_2352).
  - destruct ss; [ contradiction | discriminate ].
  - exact Hps.
  - rewrite <- Hj. destruct ss as [ | [addr sub data ecc] rest];
      [ contradiction | ].
    apply Forall_inv in Hss. destruct Hss as (Ha & _). cbn in Ha.
    destruct addr as [ | a [ | b [ | c [ | ? ?]]]]; try discriminate Ha.
    apply detect_layout_mode2; reflexivity.
  - rewrite (length_concat_blocks (sector_size Mode2_2352)).
    + rewrite !length_map, Nat2Z.inj_mul.
      unfold sector_size. cbn [sector_sz Mode2_2352]. lia.
    + apply Forall_map. eapply Forall_impl; [ | exact Hps ].
      intros [[hdr data] trailer] (_ & _ & H & _). exact H.
Qed.

(** X9.  Sectors of 2336 bytes -- subheader, data, ECC -- convert to their data
    fields, without any warning, provided the image does not happen to
    start with the 12 bytes of the sync header. *)
Theorem headerless_sectors_give_their_data
    (junk : nat -> byte) (old_iso : list byte) (ss : list fields) :
  ss <> [] ->
  Forall fields_2336 ss ->
  firstn 12 (concat (map frame_2336 ss)) <> SYNC_HEADER ->
  Z.of_nat (length ss) * 2336 <= LONG_MAX ->
  observable (run LONG_MAX junk (concat (map frame_2336 ss)) old_iso) =
  (Some EXIT_SUCCESS, concat (map f_data ss), []).
Proof.
  intros Hne Hss Hsync Hm.
  set (parts := fun s : fields => (f_subheader s, f_data s, f_ecc s)).
  assert (Hj : map frame_2336 ss = map join (map parts ss))
    by (rewrite map_map; reflexivity).
  assert (Hd : map f_data ss = map data_of (map parts ss))
    by (rewrite map_map; reflexivity).
  assert (Hps : Forall (fun p => let '(hdr, data, trailer) := p in
                   length hdr = header_size Mode2_2336
                   /\ length data = 2048%nat
                   /\ length (join p) = sector_size Mode2_2336
                   /\ (mode Mode2_2336 = x00
                       \/ nth MODE_OFFSET hdr x00 = mode Mode2_2336))
                (map parts ss)).
  { apply Forall_map. eapply Forall_impl; [ | exact Hss ].
    intros [addr sub data ecc] (Hsu & Hda & He). cbn in Hsu, Hda, He.
    unfold parts, join. cbn [f_subheader f_data f_ecc].
    rewrite !length_app, Hsu, Hda, He.
    split; [ reflexivity | ]. split; [ reflexivity | ].
    split; [ reflexivity | left; reflexivity ]. }
  rewrite Hj, Hd. apply (joined_sectors_run junk old_iso Mode2_2336).
  - destruct ss; [ contradiction | discriminate ].
  - exact Hps.
  - rewrite <- Hj. apply detect_layout_no_sync.
    rewrite firstn_firstn. exact Hsync.
  - rewrite (length_concat_blocks (sector_size Mode2_2336)).
    + rewrite !length_map, Nat2Z.inj_mul.
      unfold sector_size. cbn [sector_sz Mode2_2336]. lia.
    + apply Forall_map. eapply Forall_impl; [ | exact Hps ].
      intros [[hdr data] trailer] (_ & _ & H & _). exact H.
Qed.

(** X10.  The mode warnings of a run come in ascending order of sector, at most
    one for a sector, and each names a whole 2352-byte sector of the source
    other than sector 0; at most one size warning is among the lines. *)
Theorem mode_warnings_in_sector_order
    (junk : nat -> byte) (image old_iso : list byte) :
  StronglySorted Z.lt
    (warned_sectors (lines_of (run LONG_MAX junk image old_iso)))
  /\ Forall (fun i => 1 <= i /\ (i + 1) * 2352 <= Z.of_nat (length image))
       (warned_sectors (lines_of (run LONG_MAX junk image old_iso)))
  /\ (length (filter is_size_warning
                (lines_of (run LONG_MAX junk image old_iso))) <= 1)%nat.
Proof.
  pose proof (run_expected LONG_MAX junk image old_iso) as E.
  unfold observable, expected in E.
  assert (Hfatal : forall e : fatal,
             StronglySorted Z.lt (warned_sectors [Fatal e])
             /\ Forall (fun i => 1 <= i /\ (i + 1) * 2352 <= Z.of_nat (length image))
                  (warned_sectors [Fatal e])
             /\ (length (filter is_size_warning [Fatal e]) <= 1)%nat)
    by (intros e; cbn; repeat constructor).
  destruct (Nat.ltb_spec (length image) 16) as [Hshort | Hlong].
  { injection E as _ _ ->. apply Hfatal. }
  destruct (detect_layout (firstn 16 image)) as [l | e] eqn:Hl.
  2: { injection E as _ _ ->. apply Hfatal. }
  destruct (Z.leb_spec (Z.of_nat (length image)) LONG_MAX) as [Hm | Hm].
  2: { injection E as _ _ ->. apply Hfatal. }
  injection E as _ _ ->.
  rewrite warned_sectors_app, warned_sectors_size_warning,
    warned_sectors_mode_warnings. cbn [app].
  split; [ apply filtered_seq_sorted | ].
  split.
  - apply Forall_forall. intros z Hz.
    apply in_map_iff in Hz as (i & <- & Hi).
    apply filter_In in Hi as [Hi Hmis]. apply in_seq in Hi.
    pose proof (sector_count_le l image) as Hle.
    assert (Hnz : i <> 0%nat).
    { intros ->. rewrite (sector_0_matches image l Hl) in Hmis.
      discriminate Hmis. }
    assert (Hsz : sector_size l = 2352%nat).
    { destruct (detect_layout_known _ _ Hl) as [-> | [-> | ->]];
        [ reflexivity | reflexivity | discriminate Hmis ]. }
    rewrite Hsz in Hle. split; [ lia | nia ].
  - rewrite filter_app, no_size_warning_in_loop, app_nil_r.
    unfold size_warning. destruct (_ =? 0); cbn; lia.
Qed.

(** X11.  A run over two distinct files never changes the source file, and
    leaves its position within the file. *)
Theorem source_is_only_read
    (junk : nat -> byte) (image old_iso : list byte) :
  contents (src_file (final_state (run LONG_MAX junk image old_iso))) = image
  /\ (position (src_file (final_state (run LONG_MAX junk image old_iso)))
      <= length image)%nat.
Proof.
  destruct (Nat.lt_ge_cases (length image) 16) as [Hshort | Hlong].
  - destruct (xfread_short 16 (opened junk image)) as (st & Hx & _);
      [ lia | cbn [opened src_file contents position];
              change (Z.to_nat 16) with 16%nat; lia | ].
    assert (Hr : run LONG_MAX junk image old_iso = Exited EXIT_FAILURE st).
    { rewrite run_unfold. apply bind_Exited. unfold convert.
      now apply bind_Exited. }
    rewrite Hr. cbn [final_state].
    revert Hx. unfold xfread, bind, fread. cbn [get_file opened src_file position contents skipn].
    destruct (Nat.leb_spec (Z.to_nat 16) (length image)) as [Hle | _];
      [ change (Z.to_nat 16) with 16%nat in Hle; lia | ].
    cbn [Z.eqb negb]. unfold die. intros [= <-].
    cbn [put_line set_buf set_file src_file contents position]. split; [ reflexivity | lia ].
  - destruct (detect_layout (firstn 16 image)) as [l | e] eqn:Hl.
    + destruct (Z.le_gt_cases (Z.of_nat (length image)) LONG_MAX) as [Hm | Hm].
      * destruct (run_ok LONG_MAX junk image old_iso l Hlong Hl Hm) as (b & ->).
        cbn [final_state src_file contents position].
        split; [ reflexivity | apply sector_count_le ].
      * rewrite (run_too_large LONG_MAX junk image old_iso l Hlong Hl Hm).
        cbn [final_state src_file contents position]. split; [ reflexivity | lia ].
    + rewrite (run_unsupported LONG_MAX junk image old_iso e Hlong Hl).
      cbn [final_state put_line probed src_file contents position].
      split; [ reflexivity | lia ].
Qed.

End Run.

(** ** One read *)

(** X12.  [xfread] either takes exactly the bytes asked for, moving the source
    forward by as many and leaving the rest of the buffer as it was, or ends
    the program with the read error; it never returns after a short read. *)
Theorem xfread_reads_all_or_exits (sz : Z) (st : state) :
  0 < sz ->
  if (position (src_file st) + Z.to_nat sz
      <=? length (contents (src_file st)))%nat
  then
    xfread 0 sz src st =
    Running tt
      (mkState
         (mkFILE (contents (src_file st))
                 (position (src_file st) + Z.to_nat sz))
         (dst_file st) (stderr st)
         (firstn (Z.to_nat sz)
                 (skipn (position (src_file st)) (contents (src_file st)))
            ++ skipn (Z.to_nat sz) (buf st)))
  else
    exists st' : state,
      xfread 0 sz src st = Exited EXIT_FAILURE st'
      /\ dst_file st' = dst_file st
      /\ stderr st' = stderr st ++ [Fatal Read_error].
Proof.
  intros Hsz.
  destruct (Nat.leb_spec (position (src_file st) + Z.to_nat sz)
              (length (contents (src_file st)))) as [Hle | Hlt].
  - apply xfread_ok; [ now destruct (src_file st) | exact Hsz | exact Hle ].
  - now apply xfread_short.
Qed.

(** ** The name of the destination *)

Lemma strlen_terminated (name rest : list byte) :
  ~ In x00 name -> strlen (name ++ x00 :: rest) = length name.
Proof.
  induction name as [ | c name IH]; intros H; [ reflexivity | ].
  cbn [app strlen length].
  destruct (Byte.eqb c x00) eqn:E.
  - apply byte_dec_bl in E. subst c. exfalso. apply H. now left.
  - f_equal. apply IH. intros Hin. apply H. now right.
Qed.

Lemma strcmp_terminated (s1 s2 r1 r2 : list byte) :
  ~ In x00 s1 -> ~ In x00 s2 ->
  strcmp (s1 ++ x00 :: r1) (s2 ++ x00 :: r2) = 0 <-> s1 = s2.
Proof.
  revert s2. induction s1 as [ | a s1 IH]; intros s2 H1 H2.
  - destruct s2 as [ | b s2]; cbn [app strcmp].
    + cbn. split; reflexivity.
    + destruct (Byte.eqb x00 b) eqn:E.
      * apply byte_dec_bl in E. subst b. exfalso. apply H2. now left.
      * apply eqb_false in E. split; [ | discriminate ].
        intros H. exfalso. apply E, to_N_inj. lia.
  - destruct s2 as [ | b s2]; cbn [app strcmp].
    + destruct (Byte.eqb a x00) eqn:E.
      * apply byte_dec_bl in E. subst a. exfalso. apply H1. now left.
      * apply eqb_false in E. split; [ | discriminate ].
        intros H. exfalso. apply E, to_N_inj. lia.
    + destruct (Byte.eqb a b) eqn:E.
      * apply byte_dec_bl in E. subst b.
        destruct (Byte.eqb a x00) eqn:E0.
        { apply byte_dec_bl in E0. subst a. exfalso. apply H1. now left. }
        rewrite IH; [ | intros Hin; apply H1; now right
                      | intros Hin; apply H2; now right ].
        split; [ now intros -> | now intros [= ->] ].
      * apply eqb_false in E. split.
        { intros H. exfalso. apply E, to_N_inj. lia. }
        { intros [= H _]. contradiction. }
Qed.

Lemma in_skipn (n : nat) (x : byte) (s : list byte) :
  In x (skipn n s) -> In x s.
Proof.
  intros H. rewrite <- (firstn_skipn n s). apply in_or_app. now right.
Qed.

Lemma in_firstn (n : nat) (x : byte) (s : list byte) :
  In x (firstn n s) -> In x s.
Proof.
  intros H. rewrite <- (firstn_skipn n s). apply in_or_app. now left.
Qed.

(** [namelen] after line 95, in terms of the characters of [argv[1]]. *)
Lemma dst_namelen_spec (name rest : list byte) :
  ~ In x00 name ->
  dst_namelen (name ++ x00 :: rest) =
  if (5 <=? length name)%nat
     && (if list_eq_dec byte_eq_dec (skipn (length name - 4) name) BIN_CHARS
         then true else false)
  then length name
  else (length name + 4)%nat.
Proof.
  intros H. unfold dst_namelen. rewrite (strlen_terminated name rest H).
  destruct (Nat.ltb_spec (length name) 5) as [Hlt | Hge];
    destruct (Nat.leb_spec 5 (length name)) as [Hge' | Hlt']; try lia;
    cbn [orb andb]; [ reflexivity | ].
  rewrite skipn_app. replace (length name - 4 - length name)%nat with 0%nat by lia.
  cbn [skipn]. unfold DOT_BIN.
  pose proof (strcmp_terminated (skipn (length name - 4) name) BIN_CHARS rest []
                ltac:(intros Hin; apply H; eapply in_skipn; exact Hin)
                ltac:(cbn; intros [E | [E | [E | [E | []]]]]; discriminate E))
    as Hcmp.
  destruct (list_eq_dec byte_eq_dec (skipn (length name - 4) name) BIN_CHARS)
    as [Heq | Hne].
  - apply Hcmp in Heq. rewrite Heq. reflexivity.
  - destruct (Z.eqb_spec (strcmp (skipn (length name - 4) name ++ x00 :: rest)
                                 (BIN_CHARS ++ [x00])) 0) as [E | _];
      [ apply Hcmp in E; contradiction | reflexivity ].
Qed.

Lemma dst_namelen_bounds (name rest : list byte) :
  ~ In x00 name ->
  (4 <= dst_namelen (name ++ x00 :: rest))%nat
  /\ (length name <= dst_namelen (name ++ x00 :: rest))%nat
  /\ (dst_namelen (name ++ x00 :: rest) - 4 <= length name)%nat.
Proof.
  intros H. rewrite (dst_namelen_spec name rest H).
  destruct (Nat.leb_spec 5 (length name)); cbn [andb];
    [ destruct (list_eq_dec _ _ _) | ]; lia.
Qed.

(** The block after the two copies. *)
Lemma write_dstname_spec (name rest block : list byte) :
  ~ In x00 name ->
  write_dstname (name ++ x00 :: rest) block =
  firstn (dst_namelen (name ++ x00 :: rest) - 4) name
    ++ DOT_ISO
    ++ skipn (dst_namelen (name ++ x00 :: rest) + 1) block.
Proof.
  intros H. destruct (dst_namelen_bounds name rest H) as (H4 & Hge & Hle).
  unfold write_dstname, strcpy.
  set (k := dst_namelen (name ++ x00 :: rest)) in *.
  rewrite (strlen_terminated name rest H).
  change (strlen DOT_ISO + 1)%nat with 5%nat.
  change (firstn 5 DOT_ISO) with DOT_ISO.
  replace (firstn (length name + 1) (name ++ x00 :: rest)) with (name ++ [x00]).
  2: { rewrite firstn_app, firstn_all2 by lia.
       replace (length name + 1 - length name)%nat with 1%nat by lia.
       reflexivity. }
  rewrite store_front, length_app. cbn [length]. unfold store.
  set (tail := skipn (length name + 1) block).
  change (length DOT_ISO) with 5%nat.
  assert (Hfront : firstn (k - 4) ((name ++ [x00]) ++ tail) = firstn (k - 4) name).
  { rewrite <- app_assoc, firstn_app.
    replace (k - 4 - length name)%nat with 0%nat by lia.
    now rewrite firstn_O, app_nil_r. }
  assert (Hback : skipn (k - 4 + 5) ((name ++ [x00]) ++ tail) = skipn (k + 1) block).
  { rewrite skipn_app, skipn_all2 by (rewrite length_app; cbn [length]; lia).
    rewrite length_app. cbn [length app]. unfold tail. rewrite skipn_skipn.
    f_equal. lia. }
  now rewrite Hfront, Hback.
Qed.


Lemma iso_chars_no_nul (stem : list byte) :
  ~ In x00 stem -> ~ In x00 (stem ++ ISO_CHARS).
Proof.
  intros H Hin. apply in_app_or in Hin as [Hin | Hin]; [ now apply H | ].
  cbn in Hin. destruct Hin as [E | [E | [E | [E | []]]]]; discriminate E.
Qed.




(** X15.  The two copies store [namelen + 1] bytes: in a block of the [namelen]
    bytes asked of [xmalloc], the terminating NUL of the name lies one byte
    past the end of the block. *)
Theorem destination_name_overruns_its_block (name rest block : list byte) :
  ~ In x00 name ->
  length block = dst_namelen (name ++ x00 :: rest) ->
  strlen (write_dstname (name ++ x00 :: rest) block) = length block
  /\ nth_error (write_dstname (name ++ x00 :: rest) block) (length block)
     = Some x00
  /\ length (write_dstname (name ++ x00 :: rest) block)
     = (length block + 1)%nat.
Proof.
  intros H Hb. destruct (dst_namelen_bounds name rest H) as (H4 & Hge & Hle).
  rewrite (write_dstname_spec name rest block H), <- Hb.
  assert (Hf : length (firstn (length block - 4) name) = (length block - 4)%nat)
    by (rewrite length_firstn; lia).
  assert (Hn : ~ In x00 (firstn (length block - 4) name ++ ISO_CHARS)).
  { apply iso_chars_no_nul. intros Hin. apply H. eapply in_firstn. exact Hin. }
  rewrite (skipn_all2 block) by lia. rewrite app_nil_r.
  unfold DOT_ISO. rewrite app_assoc.
  split; [ | split ].
  - rewrite (strlen_terminated _ [] Hn), length_app, Hf. cbn [length ISO_CHARS]. lia.
  - rewrite nth_error_app2 by (rewrite length_app, Hf; cbn [length ISO_CHARS]; lia).
    rewrite length_app, Hf. cbn [length ISO_CHARS].
    now replace (length block - (length block - 4 + 4))%nat with 0%nat by lia.
  - rewrite !length_app, Hf. cbn [length ISO_CHARS]. lia.
Qed.

(** ** The hypotheses of these theorems hold on concrete inputs *)

Lemma short_source_is_a_read_error_witness :
  observable (run LP64_LONG_MAX junk0 (firstn 15 mode1_image) stale_iso) =
  (Some EXIT_FAILURE, [], [Fatal Read_error]).
Proof.
  apply (short_source_is_a_read_error LP64_LONG_MAX).
  apply Nat.ltb_lt. vm_compute. reflexivity.
Defined.

Lemma oversized_source_is_fatal_witness :
  ILP32_LONG_MAX < Z.of_nat (length huge_image)
  /\ observable (run ILP32_LONG_MAX junk0 huge_image stale_iso) =
     (Some EXIT_FAILURE, [], [Fatal Cannot_determine_source_file_size]).
Proof.
  assert (Hs : length (mode1_sector "A") = 2352%nat) by (vm_compute; reflexivity).
  assert (Hlen : length huge_image = (2352 + Z.to_nat 2147483648)%nat)
    by (unfold huge_image; now rewrite length_app, Hs, repeat_length).
  assert (H16 : (16 <= length huge_image)%nat) by (rewrite Hlen; lia).
  assert (Hbig : ILP32_LONG_MAX < Z.of_nat (length huge_image))
    by (rewrite Hlen; unfold ILP32_LONG_MAX; lia).
  assert (Hl : detect_layout (firstn 16 huge_image) = inl Mode1_2352).
  { unfold huge_image. rewrite detect_layout_app by (rewrite Hs; lia).
    vm_compute. reflexivity. }
  split; [ exact Hbig | ].
  exact (oversized_source_is_fatal ILP32_LONG_MAX junk0 huge_image stale_iso
           Mode1_2352 H16 Hl Hbig).
Defined.

Lemma conversion_of_joined_images_witness :
  iso_of (run LP64_LONG_MAX junk0 (mode1_sector "A" ++ mode1_sector "B") stale_iso) =
  iso_of (run LP64_LONG_MAX junk0 (mode1_sector "A") stale_iso)
    ++ iso_of (run LP64_LONG_MAX junk0 (mode1_sector "B") stale_iso).
Proof.
  apply (conversion_of_joined_images LP64_LONG_MAX junk0 _ _ stale_iso
           Mode1_2352 1).
  - vm_compute. reflexivity.
  - vm_compute. reflexivity.
  - vm_compute. reflexivity.
  - apply Nat.ltb_lt. reflexivity.
  - vm_compute. discriminate.
Defined.

Lemma mode1_sectors_give_their_data_witness :
  observable
    (run LP64_LONG_MAX junk0 (concat (map frame_mode1 [fields_A; fields_B]))
       stale_iso) =
  (Some EXIT_SUCCESS, concat (map f_data [fields_A; fields_B]), []).
Proof.
  apply (mode1_sectors_give_their_data LP64_LONG_MAX).
  - discriminate.
  - constructor; [ | constructor; [ | constructor ] ];
      (split; [ | split ]); vm_compute; reflexivity.
  - vm_compute. discriminate.
Defined.

Lemma mode2_sectors_give_their_data_witness :
  observable
    (run LP64_LONG_MAX junk0 (concat (map frame_mode2 [fields_C; fields_D]))
       stale_iso) =
  (Some EXIT_SUCCESS, concat (map f_data [fields_C; fields_D]), []).
Proof.
  apply (mode2_sectors_give_their_data LP64_LONG_MAX).
  - discriminate.
  - constructor; [ | constructor; [ | constructor ] ];
      (split; [ | split; [ | split ] ]); vm_compute; reflexivity.
  - vm_compute. discriminate.
Defined.

Lemma headerless_sectors_give_their_data_witness :
  observable
    (run LP64_LONG_MAX junk0 (concat (map frame_2336 [fields_C; fields_D]))
       stale_iso) =
  (Some EXIT_SUCCESS, concat (map f_data [fields_C; fields_D]), []).
Proof.
  apply (headerless_sectors_give_their_data LP64_LONG_MAX).
  - discriminate.
  - constructor; [ | constructor; [ | constructor ] ];
      (split; [ | split ]); vm_compute; reflexivity.
  - vm_compute. discriminate.
  - vm_compute. discriminate.
Defined.

Lemma xfread_reads_all_or_exits_witness :
  xfread 0 16 src (opened junk0 mode1_image) =
    Running tt
      (mkState (mkFILE mode1_image 16) (mkFILE [] 0) []
         (firstn 16 mode1_image ++ skipn 16 (map junk0 (seq 0 2352))))
  /\ exists st' : state,
       xfread 0 16 src (opened junk0 (firstn 15 mode1_image))
       = Exited EXIT_FAILURE st'
       /\ dst_file st' = mkFILE [] 0
       /\ stderr st' = [Fatal Read_error].
Proof.
  assert (H : 0 < 16) by reflexivity.
  split.
  - exact (xfread_reads_all_or_exits 16 (opened junk0 mode1_image) H).
  - exact (xfread_reads_all_or_exits 16
             (opened junk0 (firstn 15 mode1_image)) H).
Defined.



Lemma destination_name_overruns_its_block_witness :
  length (repeat xaa 7) = dst_namelen (img_bin ++ [x00])
  /\ strlen (write_dstname (img_bin ++ [x00]) (repeat xaa 7))
     = length (repeat xaa 7)
  /\ nth_error (write_dstname (img_bin ++ [x00]) (repeat xaa 7))
               (length (repeat xaa 7))
     = Some x00
  /\ length (write_dstname (img_bin ++ [x00]) (repeat xaa 7))
     = (length (repeat xaa 7) + 1)%nat.
Proof.
  assert (Hb : length (repeat xaa 7) = dst_namelen (img_bin ++ [x00]))
    by (vm_compute; reflexivity).
  split; [ exact Hb | ].
  apply (destination_name_overruns_its_block img_bin [] (repeat xaa 7));
    [ | exact Hb ].
  intros Hin. cbn in Hin.
  repeat (destruct Hin as [Hin | Hin]; [ discriminate Hin | ]). exact Hin.
Defined.
